(** * ShopEase catalog backend: a shallow embedding of [main.py]

    The development follows the layout of the service:

    - [Py]: the fragment of the Python runtime the handlers rely on
      (values, dictionaries, exceptions, [str], [float], [bool],
      [list.sort]);
    - [Regex]: the fragment of the store's regular expressions that the
      free-text search can be handed;
    - [Mongo]: the document store ([find], [distinct],
      [count_documents], [insert_one]) together with its query language;
    - [Database]: the helper module [database.py];
    - [Main]: the handlers of [main.py] themselves.

    Handlers are state transformers over the module-global store handle
    [db]; exceptions are results, so that a handler's [try]/[except] is an
    ordinary case analysis. *)

From Stdlib Require Import String Ascii List ZArith NArith Bool Lia.
From Stdlib Require Import DecimalString SpecFloat.
From Stdlib Require Import Sorted Permutation OrdersEx RelationClasses.
Import ListNotations.

Local Open Scope string_scope.
Local Open Scope list_scope.

#[local] Set Warnings "-register-all".

(* ===================================================================== *)
(** ** The Python runtime fragment *)
(* ===================================================================== *)

Module Py.

(** Exception classes that can reach a handler. *)
Inductive exc_class : Type :=
| BaseException_Exception
| TypeError
| ValueError
| OverflowError
| ValidationError
| OperationFailure.

(** An exception carries its class and the text that [str(e)] returns;
    [HTTPException] is what the handlers raise towards the dispatcher. *)
Inductive exn : Type :=
| Exc (cls : exc_class) (msg : string)
| HTTPException (status_code : nat) (detail : string).

(** The result of running a piece of Python.  [Unmodelled] marks inputs on
    which the behaviour of the runtime or of the store lies outside the
    fragment described here; nothing is asserted about them. *)
Inductive outcome (A : Type) : Type :=
| Returned (a : A)
| Raised (e : exn)
| Unmodelled.

Arguments Returned {A} a.
Arguments Raised {A} e.
Arguments Unmodelled {A}.

Definition obind {A B} (c : outcome A) (k : A -> outcome B) : outcome B :=
  match c with
  | Returned a => k a
  | Raised e => Raised e
  | Unmodelled => Unmodelled
  end.

(** IEEE-754 binary64, the representation of a Python [float]. *)
Definition float64 : Type := spec_float.

Definition f64_of_Z (z : Z) : float64 := binary_normalize 53 1024 z 0 false.

(** The float denoted by the decimal literal [m / 10^k]: the correctly
    rounded quotient of two exactly representable integers. *)
Definition f64_of_decimal (m : Z) (k : nat) : float64 :=
  SFdiv 53 1024 (f64_of_Z m) (f64_of_Z (Z.pow 10 (Z.of_nat k))).

Definition f64_zero : float64 := S754_zero false.
Definition f64_one : float64 := Eval vm_compute in f64_of_Z 1.

(** A 12-byte store identifier, kept as the number it encodes. *)
Definition ObjectId : Type := N.

(** Python values that documents, filters and responses are made of. *)
Inductive pyval : Type :=
| PNone
| PBool (b : bool)
| PInt (z : Z)
| PFloat (f : float64)
| PStr (s : string)
| PObjectId (oid : ObjectId)
| PList (l : list pyval)
| PDict (d : list (string * pyval)).

(** A [dict] keeps its keys in insertion order. *)
Definition dict : Type := list (string * pyval).

Fixpoint dict_lookup (d : dict) (k : string) : option pyval :=
  match d with
  | [] => None
  | (k', v) :: d' => if String.eqb k' k then Some v else dict_lookup d' k
  end.

(** [d.get(k, default)]. *)
Definition dict_get (d : dict) (k : string) (default : pyval) : pyval :=
  match dict_lookup d k with
  | Some v => v
  | None => default
  end.

(** [d[k] = v]: replaces in place, or appends a new key. *)
Fixpoint dict_set (d : dict) (k : string) (v : pyval) : dict :=
  match d with
  | [] => [(k, v)]
  | (k', v') :: d' =>
      if String.eqb k' k then (k, v) :: d' else (k', v') :: dict_set d' k v
  end.

(** Truthiness of an optional string, as in [if category:]. *)
Definition truthy_opt_str (o : option string) : bool :=
  match o with
  | None => false
  | Some s => negb (String.eqb s EmptyString)
  end.

Definition hex_digit (n : N) : ascii :=
  match String.get (N.to_nat n) "0123456789abcdef" with
  | Some c => c
  | None => "0"%char
  end.

Fixpoint hex_fixed (width : nat) (n : N) : string :=
  match width with
  | O => EmptyString
  | S w => hex_fixed w (N.div n 16) ++ String (hex_digit (N.modulo n 16)) EmptyString
  end.

Definition str_of_Z (z : Z) : string :=
  NilZero.string_of_int (Z.to_int z).

(** [str(v)].  The shortest round-trip rendering of floats and the
    renderings of containers are outside the fragment. *)
Definition py_str (v : pyval) : outcome string :=
  match v with
  | PNone => Returned "None"
  | PBool true => Returned "True"
  | PBool false => Returned "False"
  | PInt z => Returned (str_of_Z z)
  | PFloat _ => Unmodelled
  | PStr s => Returned s
  | PObjectId oid => Returned (hex_fixed 24 oid)
  | PList _ => Unmodelled
  | PDict _ => Unmodelled
  end.

(** [float(v)].  Integers round to nearest-even and overflow raises;
    parsing a string as a float literal is outside the fragment. *)
Definition py_float (v : pyval) : outcome float64 :=
  match v with
  | PNone => Raised (Exc TypeError "float() argument must be a string or a real number")
  | PBool b => Returned (if b then f64_one else f64_zero)
  | PInt z =>
      match f64_of_Z z with
      | S754_infinity _ => Raised (Exc OverflowError "int too large to convert to float")
      | f => Returned f
      end
  | PFloat f => Returned f
  | PStr _ => Unmodelled
  | PObjectId _ => Raised (Exc TypeError "float() argument must be a string or a real number")
  | PList _ => Raised (Exc TypeError "float() argument must be a string or a real number")
  | PDict _ => Raised (Exc TypeError "float() argument must be a string or a real number")
  end.

(** [bool(v)]. *)
Definition py_bool (v : pyval) : bool :=
  match v with
  | PNone => false
  | PBool b => b
  | PInt z => negb (Z.eqb z 0)
  | PFloat (S754_zero _) => false
  | PFloat _ => true
  | PStr s => negb (String.eqb s EmptyString)
  | PObjectId _ => true
  | PList l => match l with [] => false | _ => true end
  | PDict d => match d with [] => false | _ => true end
  end.

(** [str(e)] for an exception instance; Starlette renders an
    [HTTPException] as its status code followed by the detail. *)
Definition str_exn (e : exn) : string :=
  match e with
  | Exc _ msg => msg
  | HTTPException code detail =>
      str_of_Z (Z.of_nat code) ++ ": " ++ detail
  end.

(** [s[:n]]. *)
Definition str_prefix (n : nat) (s : string) : string := String.substring 0 n s.

Definition is_ascii7_char (c : ascii) : bool := N.ltb (N_of_ascii c) 128.

Fixpoint is_ascii_text (s : string) : bool :=
  match s with
  | EmptyString => true
  | String c s' => is_ascii7_char c && is_ascii_text s'
  end.

(** [s[:n]] on a text: Python slices by code point, which on ASCII text is
    the slice by byte; other texts are outside the fragment. *)
Definition py_slice_to (n : nat) (s : string) : outcome string :=
  if is_ascii_text s then Returned (String.substring 0 n s) else Unmodelled.

(** Insertion of a string into an ascending list. *)
Fixpoint insert_str (x : string) (l : list string) : list string :=
  match l with
  | [] => [x]
  | y :: l' => if String.leb x y then x :: l else y :: insert_str x l'
  end.

Fixpoint sort_str (l : list string) : list string :=
  match l with
  | [] => []
  | x :: l' => insert_str x (sort_str l')
  end.

(** The strings of a list of values, when every value is a string. *)
Fixpoint all_strs (l : list pyval) : option (list string) :=
  match l with
  | [] => Some []
  | PStr s :: l' =>
      match all_strs l' with
      | Some r => Some (s :: r)
      | None => None
      end
  | _ :: _ => None
  end.

(** [l.sort()].  Strings order by code point, and a list of at most one
    element needs no comparison.  A string does not compare with a value
    of another type, and [None] and dictionaries compare with nothing:
    sorting two or more values among which one of these occurs raises
    [TypeError].  Lists made of numbers, identifiers and nested lists only
    are outside the fragment. *)
Definition py_sort (l : list pyval) : outcome (list pyval) :=
  match all_strs l with
  | Some strs => Returned (map PStr (sort_str strs))
  | None =>
      match l with
      | [] | [_] => Returned l
      | _ =>
          if existsb (fun v => match v with
                               | PStr _ | PNone | PDict _ => true
                               | _ => false
                               end) l
          then Raised (Exc TypeError "'<' not supported between instances")
          else Unmodelled
      end
  end.

End Py.

(* ===================================================================== *)
(** ** The store's regular expressions *)
(* ===================================================================== *)

Module Regex.
Import Py.

(** Abstract syntax of the modelled fragment: literals, [.], the anchors
    [^] and [$], grouping, alternation and the quantifiers [*], [+], [?]
    (the last two as derived forms). *)
Inductive regex : Type :=
| Eps
| Chr (c : ascii)
| Any
| Bol
| Eol
| Cat (r1 r2 : regex)
| Alt (r1 r2 : regex)
| Star (r : regex).

Definition Plus (r : regex) : regex := Cat r (Star r).
Definition Opt (r : regex) : regex := Alt r Eps.

Definition newline : ascii := "010"%char.
Definition backslash : ascii := "092"%char.

(** ASCII case folding. *)
Definition lower (c : ascii) : ascii :=
  let n := N_of_ascii c in
  if (N.leb 65 n && N.leb n 90)%bool then ascii_of_N (n + 32) else c.

Definition chr_match (ci : bool) (c x : ascii) : bool :=
  if ci then Ascii.eqb (lower c) (lower x) else Ascii.eqb c x.

(** Backtracking matcher.  [bol] tells whether the position is the start
    of the subject, [s] is the rest of the subject and [k] the
    continuation to run on what an alternative leaves.  An iteration of
    [Star] has to consume input, which bounds their number by the length
    of the subject. *)
Fixpoint matches (ci : bool) (r : regex) (bol : bool) (s : string)
         (k : bool -> string -> bool) {struct r} : bool :=
  match r with
  | Eps => k bol s
  | Chr c =>
      match s with
      | String x s' => chr_match ci c x && k false s'
      | EmptyString => false
      end
  | Any =>
      match s with
      | String x s' => negb (Ascii.eqb x newline) && k false s'
      | EmptyString => false
      end
  | Bol => bol && k bol s
  | Eol => (String.eqb s EmptyString || String.eqb s (String newline EmptyString)) && k bol s
  | Cat r1 r2 => matches ci r1 bol s (fun b' s' => matches ci r2 b' s' k)
  | Alt r1 r2 => matches ci r1 bol s k || matches ci r2 bol s k
  | Star r1 =>
      (fix star (fuel : nat) (b : bool) (s0 : string) {struct fuel} : bool :=
         k b s0 ||
         match fuel with
         | O => false
         | S fuel' =>
             matches ci r1 b s0
               (fun b' s' =>
                  Nat.ltb (String.length s') (String.length s0) && star fuel' b' s')
         end) (String.length s) bol s
  end.

(** Unanchored search: a match may start at any position. *)
Fixpoint search_at (ci : bool) (r : regex) (bol : bool) (s : string) : bool :=
  matches ci r bol s (fun _ _ => true) ||
  match s with
  | String _ s' => search_at ci r false s'
  | EmptyString => false
  end.

Definition is_ascii7 (c : ascii) : bool := N.ltb (N_of_ascii c) 128.

Fixpoint all_chars (f : ascii -> bool) (s : string) : bool :=
  match s with
  | EmptyString => true
  | String c s' => f c && all_chars f s'
  end.

(** Searching a subject.  Subjects with characters beyond ASCII (which
    the store matches by code point and folds by Unicode rules) are
    outside the fragment. *)
Definition search (ci : bool) (r : regex) (subject : string) : outcome bool :=
  if all_chars is_ascii7 subject
  then Returned (search_at ci r true subject)
  else Unmodelled.

(** *** Parsing a pattern *)

(** What the last item of the sequence being read is, which decides what a
    following quantifier character means. *)
Inductive last_item : Type :=
| LNone       (* start of pattern, of a group or of an alternative *)
| LAtom       (* a repeatable item *)
| LQuant      (* an item that has just been quantified *)
| LLazy       (* a quantifier that has just been made lazy *)
| LAnchor.    (* an assertion *)

(** A group under construction: the alternatives already closed and the
    items of the current alternative, both most recent first. *)
Record frame : Type := mkFrame { closed : list regex; cur : list regex }.

Definition empty_frame : frame := mkFrame [] [].

Definition seq_regex (items : list regex) : regex := fold_right Cat Eps items.

Definition frame_regex (f : frame) : regex :=
  fold_left (fun acc r => Alt r acc) (closed f) (seq_regex (rev (cur f))).

Definition push (r : regex) (f : frame) : frame := mkFrame (closed f) (r :: cur f).

Definition next_alt (f : frame) : frame :=
  mkFrame (seq_regex (rev (cur f)) :: closed f) [].

Definition quantify (q : ascii) (r : regex) : regex :=
  if Ascii.eqb q "*"%char then Star r
  else if Ascii.eqb q "+"%char then Plus r
  else Opt r.

Definition requantify (q : ascii) (f : frame) : frame :=
  match cur f with
  | r :: rs => mkFrame (closed f) (quantify q r :: rs)
  | [] => f
  end.

Definition is_alnum (c : ascii) : bool :=
  let n := N_of_ascii c in
  ((N.leb 48 n && N.leb n 57) || (N.leb 65 n && N.leb n 90) ||
   (N.leb 97 n && N.leb n 122))%bool.

Definition is_quantifier (c : ascii) : bool :=
  (Ascii.eqb c "*"%char || Ascii.eqb c "+"%char || Ascii.eqb c "?"%char)%bool.

Definition invalid (why : string) : exn :=
  Exc OperationFailure ("Regular expression is invalid: " ++ why).

(** One pass over the pattern with a stack of open groups.  Character
    classes, counted repetition, possessive quantifiers, quantified
    assertions, escapes of letters and digits, groups that open with a
    question mark or a star, and characters outside ASCII are outside the
    fragment. *)
Fixpoint parse (p : string) (stack : list frame) (top : frame)
         (last : last_item) {struct p} : outcome regex :=
  match p with
  | EmptyString =>
      match stack with
      | [] => Returned (frame_regex top)
      | _ :: _ => Raised (invalid "missing closing parenthesis")
      end
  | String c p' =>
      if Ascii.eqb c backslash then
        match p' with
        | EmptyString => Raised (invalid "\ at end of pattern")
        | String e p'' =>
            if (is_alnum e || negb (is_ascii7 e) || Ascii.eqb e zero)%bool
            then Unmodelled
            else parse p'' stack (push (Chr e) top) LAtom
        end
      else if Ascii.eqb c "("%char then
        match p' with
        | String "?"%char _ => Unmodelled
        | String "*"%char _ => Unmodelled
        | _ => parse p' (top :: stack) empty_frame LNone
        end
      else if Ascii.eqb c ")"%char then
        match stack with
        | [] => Raised (invalid "unmatched closing parenthesis")
        | parent :: stack' =>
            parse p' stack' (push (frame_regex top) parent) LAtom
        end
      else if Ascii.eqb c "|"%char then parse p' stack (next_alt top) LNone
      else if is_quantifier c then
        match last with
        | LAtom => parse p' stack (requantify c top) LQuant
        | LQuant =>
            if Ascii.eqb c "?"%char then parse p' stack top LLazy
            else if Ascii.eqb c "+"%char then Unmodelled
            else Raised (invalid "quantifier does not follow a repeatable item")
        | LLazy =>
            Raised (invalid "quantifier does not follow a repeatable item")
        | LNone =>
            Raised (invalid "quantifier does not follow a repeatable item")
        | LAnchor => Unmodelled
        end
      else if Ascii.eqb c "."%char then parse p' stack (push Any top) LAtom
      else if Ascii.eqb c "^"%char then parse p' stack (push Bol top) LAnchor
      else if Ascii.eqb c "$"%char then parse p' stack (push Eol top) LAnchor
      else if (Ascii.eqb c "["%char || Ascii.eqb c "{"%char)%bool then Unmodelled
      else if (negb (is_ascii7 c) || Ascii.eqb c zero)%bool then Unmodelled
      else parse p' stack (push (Chr c) top) LAtom
  end.

Definition compile (pattern : string) : outcome regex :=
  parse pattern [] empty_frame LNone.

(** The characters a pattern reads as themselves. *)
Definition is_literal_char (c : ascii) : bool :=
  (is_ascii7 c && negb (Ascii.eqb c zero) &&
   negb (existsb (Ascii.eqb c)
           [backslash; "^"; "$"; "."; "["; "|"; "("; ")"; "?"; "*"; "+"; "{"]%char))%bool.

Definition is_literal (pattern : string) : bool :=
  all_chars is_literal_char pattern.

(** The pattern that reads every character of [p] as itself. *)
Definition literal (p : string) : regex :=
  seq_regex (map Chr (list_ascii_of_string p)).

(** Case-insensitive containment of [p] as a literal substring: what the
    search is described as in prose. *)
Fixpoint prefix_ci (p s : string) : bool :=
  match p, s with
  | EmptyString, _ => true
  | String _ _, EmptyString => false
  | String a p', String b s' => Ascii.eqb (lower a) (lower b) && prefix_ci p' s'
  end.

Fixpoint contains_ci (p s : string) : bool :=
  prefix_ci p s ||
  match s with
  | String _ s' => contains_ci p s'
  | EmptyString => false
  end.

End Regex.

(* ===================================================================== *)
(** ** The document store *)
(* ===================================================================== *)

Module Mongo.
Import Py.

(** A parsed filter. *)
Inductive query : Type :=
| QAll
| QAnd (q1 q2 : query)
| QOr (alternatives : list query)
| QEq (field : string) (s : string)
| QRegex (field : string) (ci : bool) (r : Regex.regex).

Definition starts_with_dollar (k : string) : bool :=
  match k with
  | String c _ => Ascii.eqb c "$"%char
  | EmptyString => false
  end.

Definition has_dot (k : string) : bool :=
  negb (Regex.all_chars (fun c => negb (Ascii.eqb c "."%char)) k).

(** The [$options] of a [$regex]; only the empty set of options and [i]
    are in the fragment. *)
Definition parse_options (o : string) : outcome bool :=
  if String.eqb o EmptyString then Returned false
  else if String.eqb o "i" then Returned true
  else Unmodelled.

(** The condition that a filter puts on one field: a string stands for
    equality, a dictionary of [$regex] and [$options] for a pattern match;
    other conditions, operators and dotted paths are outside the
    fragment. *)
Definition parse_cond (k : string) (c : pyval) : outcome query :=
  if (starts_with_dollar k || has_dot k)%bool then Unmodelled
  else
    match c with
    | PStr s => Returned (QEq k s)
    | PDict ops =>
        if forallb (fun e => (String.eqb (fst e) "$regex" ||
                              String.eqb (fst e) "$options")%bool) ops
        then
          match dict_lookup ops "$regex" with
          | Some (PStr p) =>
              obind (match dict_lookup ops "$options" with
                     | None => Returned false
                     | Some (PStr o) => parse_options o
                     | Some _ => Unmodelled
                     end)
                (fun ci => obind (Regex.compile p) (fun r => Returned (QRegex k ci r)))
          | _ => Unmodelled
          end
        else Unmodelled
    | _ => Unmodelled
    end.

(** A filter document is the conjunction of its entries; [$or] takes a
    non-empty array of filter documents.  Patterns are compiled here, so
    an invalid pattern fails the whole query whatever the collection
    holds. *)
Fixpoint parse_filter_val (v : pyval) : outcome query :=
  match v with
  | PDict entries =>
      (fix clauses (es : list (string * pyval)) : outcome query :=
         match es with
         | [] => Returned QAll
         | (k, c) :: es' =>
             obind
               (if String.eqb k "$or" then
                  match c with
                  | PList [] =>
                      Raised (Exc OperationFailure "$or must be a nonempty array")
                  | PList alts =>
                      obind
                        ((fix each (l : list pyval) : outcome (list query) :=
                            match l with
                            | [] => Returned []
                            | a :: l' =>
                                obind (parse_filter_val a) (fun qa =>
                                obind (each l') (fun qs => Returned (qa :: qs)))
                            end) alts)
                        (fun qs => Returned (QOr qs))
                  | _ => Raised (Exc OperationFailure "$or must be an array")
                  end
                else parse_cond k c)
               (fun q1 => obind (clauses es') (fun q2 => Returned (QAnd q1 q2)))
         end) entries
  | _ => Raised (Exc OperationFailure "filter must be a document")
  end.

Definition parse_filter (filter : dict) : outcome query :=
  parse_filter_val (PDict filter).

Definition str_equal (s : string) (v : pyval) : bool :=
  match v with
  | PStr x => String.eqb x s
  | _ => false
  end.

Fixpoint search_any (ci : bool) (r : Regex.regex) (l : list pyval) : outcome bool :=
  match l with
  | [] => Returned false
  | PStr x :: l' =>
      obind (Regex.search ci r x) (fun b =>
      obind (search_any ci r l') (fun b' => Returned (b || b')))
  | _ :: l' => search_any ci r l'
  end.

(** Whether a document satisfies a query.  A condition on a field that
    holds an array is met when an element meets it; a pattern is met by
    strings only. *)
Fixpoint eval_query (q : query) (d : dict) : outcome bool :=
  match q with
  | QAll => Returned true
  | QAnd q1 q2 =>
      obind (eval_query q1 d) (fun b1 =>
      obind (eval_query q2 d) (fun b2 => Returned (b1 && b2)))
  | QOr qs =>
      (fix any (l : list query) : outcome bool :=
         match l with
         | [] => Returned false
         | q' :: l' =>
             obind (eval_query q' d) (fun b =>
             obind (any l') (fun b' => Returned (b || b')))
         end) qs
  | QEq k s =>
      match dict_lookup d k with
      | Some (PList l) => Returned (existsb (str_equal s) l)
      | Some v => Returned (str_equal s v)
      | None => Returned false
      end
  | QRegex k ci r =>
      match dict_lookup d k with
      | Some (PStr x) => Regex.search ci r x
      | Some (PList l) => search_any ci r l
      | _ => Returned false
      end
  end.

(** A filter applied to a document. *)
Definition doc_matches (filter : dict) (d : dict) : outcome bool :=
  obind (parse_filter filter) (fun q => eval_query q d).

Fixpoint filter_docs (q : query) (docs : list dict) : outcome (list dict) :=
  match docs with
  | [] => Returned []
  | d :: rest =>
      obind (eval_query q d) (fun b =>
      obind (filter_docs q rest) (fun r => Returned (if b then d :: r else r)))
  end.

(** The state of a database: its collections in insertion order, the
    next identifier the store hands out (standing for an identifier it
    has not used before), and the schedule of failures: every call to the
    store takes the head of [faults], and [Some msg] makes that call raise
    with message [msg].  An exhausted schedule means no further failure. *)
Record database : Type := mkDatabase {
  collections : list (string * list dict);
  next_oid : ObjectId;
  faults : list (option string)
}.

Fixpoint coll_lookup (cs : list (string * list dict)) (name : string) : list dict :=
  match cs with
  | [] => []
  | (n, docs) :: cs' => if String.eqb n name then docs else coll_lookup cs' name
  end.

Fixpoint coll_set (cs : list (string * list dict)) (name : string)
         (docs : list dict) : list (string * list dict) :=
  match cs with
  | [] => [(name, docs)]
  | (n, old) :: cs' =>
      if String.eqb n name then (n, docs) :: cs' else (n, old) :: coll_set cs' name docs
  end.

Definition collection (D : database) (name : string) : list dict :=
  coll_lookup (collections D) name.

Definition take_fault (D : database) : option string * database :=
  match faults D with
  | [] => (None, D)
  | f :: rest => (f, mkDatabase (collections D) (next_oid D) rest)
  end.

(** A call to the store: it fails as scheduled, or runs [body]. *)
Definition store_call {A} (body : database -> outcome A * database)
           (D : database) : outcome A * database :=
  match take_fault D with
  | (Some msg, D') => (Raised (Exc OperationFailure msg), D')
  | (None, D') => body D'
  end.

(** [db[name].find(filter)], read to the end. *)
Definition find (name : string) (filter : dict) : database -> outcome (list dict) * database :=
  store_call (fun D =>
    (obind (parse_filter filter) (fun q => filter_docs q (collection D name)), D)).

(** [db[name].count_documents(filter)]. *)
Definition count_documents (name : string) (filter : dict)
  : database -> outcome nat * database :=
  store_call (fun D =>
    (obind (parse_filter filter) (fun q =>
     obind (filter_docs q (collection D name)) (fun r => Returned (length r))), D)).

(** The values a document contributes to [distinct]: none when the field
    is missing, the elements of an array, the value itself otherwise. *)
Definition field_values (key : string) (d : dict) : list pyval :=
  match dict_lookup d key with
  | None => []
  | Some (PList l) => l
  | Some v => [v]
  end.

Definition scalar_eqb (a b : pyval) : bool :=
  match a, b with
  | PNone, PNone => true
  | PBool x, PBool y => Bool.eqb x y
  | PInt x, PInt y => Z.eqb x y
  | PStr x, PStr y => String.eqb x y
  | PObjectId x, PObjectId y => N.eqb x y
  | _, _ => false
  end.

Definition is_plain_scalar (v : pyval) : bool :=
  match v with
  | PNone | PBool _ | PInt _ | PStr _ | PObjectId _ => true
  | PFloat _ | PList _ | PDict _ => false
  end.

(** Keeps the first occurrence of every value. *)
Fixpoint dedup (l : list pyval) : list pyval :=
  match l with
  | [] => []
  | x :: l' => x :: filter (fun y => negb (scalar_eqb x y)) (dedup l')
  end.

(** [db[name].distinct(key)].  Floats (which the store identifies with
    the integers they equal), nested arrays and embedded documents among
    the values are outside the fragment. *)
Definition distinct (name : string) (key : string)
  : database -> outcome (list pyval) * database :=
  store_call (fun D =>
    let values := flat_map (field_values key) (collection D name) in
    (if forallb is_plain_scalar values then Returned (dedup values) else Unmodelled, D)).

(** [db[name].insert_one(doc)] for a document without an identifier of its
    own: the store assigns one and appends the document. *)
Definition insert_one (name : string) (doc : dict)
  : database -> outcome ObjectId * database :=
  store_call (fun D =>
    match dict_lookup doc "_id" with
    | Some _ => (Unmodelled, D)
    | None =>
        let oid := next_oid D in
        let stored := ("_id", PObjectId oid) :: doc in
        (Returned oid,
         mkDatabase (coll_set (collections D) name (collection D name ++ [stored]))
                    (N.succ oid) (faults D))
    end).

(** [db.list_collection_names()]. *)
Definition list_collection_names : database -> outcome (list string) * database :=
  store_call (fun D => (Returned (map fst (collections D)), D)).

End Mongo.

(* ===================================================================== *)
(** ** Handlers as state transformers *)
(* ===================================================================== *)

Module Handler.
Import Py.

(** The module-global [db]: a database, or [None] when the store could
    not be initialised. *)
Definition db_state : Type := option Mongo.database.

Definition M (A : Type) : Type := db_state -> outcome A * db_state.

Definition ret {A} (a : A) : M A := fun db => (Returned a, db).

Definition raise {A} (e : exn) : M A := fun db => (Raised e, db).

Definition lift {A} (o : outcome A) : M A := fun db => (o, db).

Definition bind {A B} (c : M A) (k : A -> M B) : M B :=
  fun db =>
    match c db with
    | (Returned a, db') => k a db'
    | (Raised e, db') => (Raised e, db')
    | (Unmodelled, db') => (Unmodelled, db')
    end.

(** [try: c  except Exception as e: handler(e)]. *)
Definition try_except {A} (c : M A) (handler : exn -> M A) : M A :=
  fun db =>
    match c db with
    | (Raised e, db') => handler e db'
    | r => r
    end.

(** [for x in xs: body(x)]. *)
Fixpoint for_each {A} (xs : list A) (body : A -> M unit) : M unit :=
  match xs with
  | [] => ret tt
  | x :: xs' => bind (body x) (fun _ => for_each xs' body)
  end.

(** A call on the database behind [db], which must not be [None]. *)
Definition on_db {A} (call : Mongo.database -> outcome A * Mongo.database)
           (D : Mongo.database) : outcome A * db_state :=
  let (r, D') := call D in (r, Some D').

End Handler.

(* ===================================================================== *)
(** ** [database.py] *)
(* ===================================================================== *)

Module Database.
Import Py Handler.

(** Modelled from the spec: [get_documents] of [database.py], which is not
    part of the sources at hand.  A read on an unavailable store handle
    behaves as if it returned nothing; otherwise it is the store's [find]
    on the named collection. *)
Definition get_documents (collection_name : string) (filter_dict : dict)
  : M (list dict) :=
  fun db =>
    match db with
    | None => (Returned [], None)
    | Some D => on_db (Mongo.find collection_name filter_dict) D
    end.

(** Modelled from the spec: [create_document] of [database.py], which is
    not part of the sources at hand.  A write on an unavailable store
    handle raises; otherwise the document is inserted and the identifier
    the store assigned is returned as a string. *)
Definition create_document (collection_name : string) (data : dict) : M string :=
  fun db =>
    match db with
    | None => (Raised (Exc BaseException_Exception "Database not available"), None)
    | Some D =>
        let (r, db') := on_db (Mongo.insert_one collection_name data) D in
        (obind r (fun oid => py_str (PObjectId oid)), db')
    end.

End Database.

(* ===================================================================== *)
(** ** [main.py] *)
(* ===================================================================== *)

Module Main.
Import Py Handler Database.

(** [GET /]. *)
Definition read_root : M dict :=
  ret [("message", PStr "ShopEase backend running")].

(** The response that [test_database] starts from. *)
Definition test_response : dict :=
  [ ("backend", PStr "✅ Running");
    ("database", PStr "❌ Not Available");
    ("database_url", PNone);
    ("database_name", PNone);
    ("connection_status", PStr "Not Connected");
    ("collections", PList []) ].

(** The body of the outer [try] of [test_database].  The response is
    updated in place, so it is threaded through and survives an
    exception.  [database_url] is what [os.getenv("DATABASE_URL")] yields
    and [name] is the [name] attribute of the handle, when it has one. *)
Definition test_database_body (database_url name : option string)
           (response : dict) (db : db_state) : outcome unit * dict * db_state :=
  match db with
  | Some D =>
      let response := dict_set response "database" (PStr "✅ Available") in
      let response :=
        dict_set response "database_url"
          (PStr (if truthy_opt_str database_url then "✅ Set" else "❌ Not Set")) in
      let response :=
        dict_set response "database_name"
          (PStr (match name with Some n => n | None => "✅ Connected" end)) in
      let response := dict_set response "connection_status" (PStr "Connected") in
      match on_db Mongo.list_collection_names D with
      | (Returned collections, db') =>
          let response :=
            dict_set response "collections" (PList (map PStr (firstn 10 collections))) in
          let response := dict_set response "database" (PStr "✅ Connected & Working") in
          (Returned tt, response, db')
      | (Raised e, db') =>
          match py_slice_to 50 (str_exn e) with
          | Returned text =>
              (Returned tt,
               dict_set response "database" (PStr ("⚠️ Connected but Error: " ++ text)),
               db')
          | Raised e' => (Raised e', response, db')
          | Unmodelled => (Unmodelled, response, db')
          end
      | (Unmodelled, db') => (Unmodelled, response, db')
      end
  | None =>
      (Returned tt,
       dict_set response "database" (PStr "⚠️ Available but not initialized"), None)
  end.

(** [GET /test]. *)
Definition test_database (database_url name : option string) : M dict :=
  fun db =>
    match test_database_body database_url name test_response db with
    | (Returned _, response, db') => (Returned response, db')
    | (Raised e, response, db') =>
        match py_slice_to 50 (str_exn e) with
        | Returned text =>
            (Returned (dict_set response "database" (PStr ("❌ Error: " ++ text))), db')
        | Raised e' => (Raised e', db')
        | Unmodelled => (Unmodelled, db')
        end
    | (Unmodelled, _, db') => (Unmodelled, db')
    end.

(** [class ProductOut(BaseModel)]. *)
Record ProductOut : Type := mkProductOut {
  id : string;
  title : string;
  description : option string;
  price : float64;
  category : string;
  in_stock : bool
}.

(** The verdict of the model on one field.  [FieldUnsettled] stands for a
    value whose fate depends on the major version of the validation
    library (a number given for a string field is coerced by one and
    rejected by the other). *)
Inductive field_check (A : Type) : Type :=
| FieldOk (a : A)
| FieldInvalid
| FieldUnsettled.

Arguments FieldOk {A} a.
Arguments FieldInvalid {A}.
Arguments FieldUnsettled {A}.

(** Validation of a [str] field: [None], identifiers and containers are
    rejected. *)
Definition validate_str (v : pyval) : field_check string :=
  match v with
  | PStr s => FieldOk s
  | PBool _ | PInt _ | PFloat _ => FieldUnsettled
  | PNone | PObjectId _ | PList _ | PDict _ => FieldInvalid
  end.

(** Validation of an [Optional[str]] field. *)
Definition validate_optional_str (v : pyval) : field_check (option string) :=
  match v with
  | PNone => FieldOk None
  | _ =>
      match validate_str v with
      | FieldOk s => FieldOk (Some s)
      | FieldInvalid => FieldInvalid
      | FieldUnsettled => FieldUnsettled
      end
  end.

Definition is_invalid {A} (c : field_check A) : bool :=
  match c with FieldInvalid => true | _ => false end.

Definition is_unsettled {A} (c : field_check A) : bool :=
  match c with FieldUnsettled => true | _ => false end.

(** The line that opens the report of a validation error: the number of
    rejected fields and the name of the model.  The lines that follow in
    the library's report, one group per rejected field, depend on its
    version and are left out; no handler renders this exception. *)
Definition validation_summary (model : string) (errors : nat) : string :=
  str_of_Z (Z.of_nat errors)
  ++ (if Nat.eqb errors 1 then " validation error for " else " validation errors for ")
  ++ model.

(** [ProductOut(id=..., title=..., description=..., price=..., category=...,
    in_stock=...)]: the arguments that the caller has already coerced are
    taken at their type, the passed-through ones are validated.  Every
    field is validated, and all the rejected fields are reported by one
    [ValidationError]. *)
Definition ProductOut_init (id_ : string) (title_ description_ : pyval)
           (price_ : float64) (category_ : pyval) (in_stock_ : bool)
  : outcome ProductOut :=
  let t := validate_str title_ in
  let de := validate_optional_str description_ in
  let c := validate_str category_ in
  match t, de, c with
  | FieldOk t', FieldOk de', FieldOk c' =>
      Returned (mkProductOut id_ t' de' price_ c' in_stock_)
  | _, _, _ =>
      if (is_unsettled t || is_unsettled de || is_unsettled c)%bool then Unmodelled
      else
        Raised (Exc ValidationError
                  (validation_summary "ProductOut"
                     (Nat.b2n (is_invalid t) + Nat.b2n (is_invalid de)
                      + Nat.b2n (is_invalid c))))
  end.

(** What the response serialiser emits for a [ProductOut]: every declared
    field, a [None] as null ([response_model=List[ProductOut]] sets no
    exclusion). *)
Definition ProductOut_dump (p : ProductOut) : dict :=
  [ ("id", PStr (id p));
    ("title", PStr (title p));
    ("description", match description p with Some s => PStr s | None => PNone end);
    ("price", PFloat (price p));
    ("category", PStr (category p));
    ("in_stock", PBool (in_stock p)) ].

(** The body of the loop of [list_products]: the public record of one
    stored document. *)
Definition product_out (d : dict) : outcome ProductOut :=
  obind (py_str (dict_get d "_id" PNone)) (fun id_ =>
  let title_ := dict_get d "title" PNone in
  let description_ := dict_get d "description" PNone in
  obind (py_float (dict_get d "price" (PInt 0))) (fun price_ =>
  let category_ := dict_get d "category" PNone in
  let in_stock_ := py_bool (dict_get d "in_stock" (PBool true)) in
  ProductOut_init id_ title_ description_ price_ category_ in_stock_)).

(** [for d in docs: out.append(ProductOut(...))]. *)
Fixpoint products_out (docs : list dict) (out : list ProductOut)
  : outcome (list ProductOut) :=
  match docs with
  | [] => Returned out
  | d :: rest => obind (product_out d) (fun p => products_out rest (out ++ [p]))
  end.

(** The filter that [list_products] builds from its two parameters. *)
Definition list_products_filter (category_ q : option string) : dict :=
  let filter_dict : dict := [] in
  let filter_dict :=
    match category_ with
    | Some c =>
        if truthy_opt_str category_
        then dict_set filter_dict "category" (PStr c)
        else filter_dict
    | None => filter_dict
    end in
  let filter_dict :=
    match q with
    | Some q' =>
        if truthy_opt_str q
        then dict_set filter_dict "$or"
               (PList [ PDict [("title", PDict [("$regex", PStr q'); ("$options", PStr "i")])];
                        PDict [("description", PDict [("$regex", PStr q'); ("$options", PStr "i")])] ])
        else filter_dict
    | None => filter_dict
    end in
  filter_dict.

(** [GET /api/products]. *)
Definition list_products (category_ q : option string) : M (list ProductOut) :=
  let filter_dict := list_products_filter category_ q in
  bind (get_documents "product" filter_dict) (fun docs =>
  lift (products_out docs [])).

(** Modelled from the spec: the input model [Product] of [schemas.py],
    which is not part of the sources at hand: [title], [price] and
    [category] are required, [description] is optional and [in_stock]
    defaults to true. *)
Record Product : Type := mkProduct {
  p_title : string;
  p_description : option string;
  p_price : float64;
  p_category : string;
  p_in_stock : bool
}.

Definition Product_dump (p : Product) : dict :=
  [ ("title", PStr (p_title p));
    ("description", match p_description p with Some s => PStr s | None => PNone end);
    ("price", PFloat (p_price p));
    ("category", PStr (p_category p));
    ("in_stock", PBool (p_in_stock p)) ].

Definition server_error {A} (e : exn) : M A :=
  raise (HTTPException 500 (str_exn e)).

(** [POST /api/products]. *)
Definition create_product (product : Product) : M dict :=
  try_except
    (bind (create_document "product" (Product_dump product)) (fun inserted_id =>
     ret [("id", PStr inserted_id)]))
    server_error.

(** [db["product"].distinct("category") if db is not None else []]. *)
Definition distinct_categories : M (list pyval) :=
  fun db =>
    match db with
    | Some D => on_db (Mongo.distinct "product" "category") D
    | None => (Returned [], None)
    end.

(** [GET /api/categories]; the value handed to the response serialiser. *)
Definition list_categories : M (list pyval) :=
  try_except
    (bind distinct_categories (fun categories =>
     bind (lift (py_sort categories)) (fun categories =>
     ret categories)))
    server_error.

Definition sample (title_ description_ : string) (price_ : float64)
           (category_ : string) : dict :=
  [ ("title", PStr title_);
    ("description", PStr description_);
    ("price", PFloat price_);
    ("category", PStr category_);
    ("in_stock", PBool true) ].

Definition samples : list dict :=
  [ sample "Classic White T-Shirt" "Soft cotton tee for everyday wear."
      (f64_of_decimal 1499 2) "Clothes";
    sample "Organic Granola" "Crunchy, honey-sweetened breakfast granola."
      (f64_of_decimal 749 2) "Food";
    sample "Bluetooth Headphones" "Noise-isolating on-ear headphones with 20h battery."
      (f64_of_decimal 5999 2) "Electronics";
    sample "Stainless Water Bottle" "Keeps drinks cold for 24h and hot for 12h."
      (f64_of_decimal 1999 2) "Home";
    sample "Gourmet Dark Chocolate" "70% cacao premium chocolate bar."
      (f64_of_decimal 399 2) "Food" ].

(** [db["product"].count_documents({}) if db is not None else 0]. *)
Definition count_products : M nat :=
  fun db =>
    match db with
    | Some D => on_db (Mongo.count_documents "product" []) D
    | None => (Returned 0, None)
    end.

(** The body of the seeding loop: [create_document("product", s)]. *)
Definition insert_sample (s : dict) : M unit :=
  bind (create_document "product" s) (fun _ => ret tt).

(** [POST /api/seed]. *)
Definition seed_products : M dict :=
  try_except
    (bind count_products (fun count =>
     if Nat.ltb 0 count then
       ret [("status", PStr "ok"); ("seeded", PBool false);
            ("existing", PInt (Z.of_nat count))]
     else
       bind (for_each samples insert_sample) (fun _ =>
       ret [("status", PStr "ok"); ("seeded", PBool true);
            ("count", PInt (Z.of_nat (length samples)))])))
    server_error.

End Main.

(* ===================================================================== *)
(** ** Statements of the specification *)
(* ===================================================================== *)

Module Spec.
Import Py.






(** The strings among the values of a list. *)
Fixpoint strs_of (l : list pyval) : list string :=
  match l with
  | [] => []
  | PStr s :: l' => s :: strs_of l'
  | _ :: l' => strs_of l'
  end.

(** The strings that a field holds: the value itself when it is a string,
    the string elements when it is an array, none otherwise. *)
Definition held_strings (d : dict) (k : string) : list string :=
  match dict_lookup d k with
  | Some (PStr s) => [s]
  | Some (PList l) => strs_of l
  | _ => []
  end.

(** The field [k] holds the string [c]. *)
Definition holds_string (c : string) (d : dict) (k : string) : bool :=
  existsb (fun x => String.eqb x c) (held_strings d k).


(** The field [k] holds a string that contains [p] as a literal substring,
    whatever the case of the letters. *)
Definition holds_text (p : string) (d : dict) (k : string) : bool :=
  existsb (Regex.contains_ci p) (held_strings d k).

Definition category_ok (category_ : option string) (d : dict) : bool :=
  match category_ with
  | Some c => holds_string c d "category"
  | None => true
  end.


(** The match with the search term [p] read as a literal text. *)
Definition matches_literal (category_ : option string) (p : string) (d : dict) : bool :=
  category_ok category_ d && (holds_text p d "title" || holds_text p d "description").


(** The field [k] does not hold a number, the one kind of value on which
    the versions of the validation library disagree. *)
Definition settled_field (d : dict) (k : string) : bool :=
  match dict_lookup d k with
  | Some (PBool _) | Some (PInt _) | Some (PFloat _) => false
  | _ => true
  end.

(** No failure is scheduled for the next [k] calls to the store. *)
Definition no_fault_within (k : nat) (fs : list (option string)) : bool :=
  forallb (fun f => match f with None => true | Some _ => false end) (firstn k fs).

(** Documents as the store holds them after assigning consecutive
    identifiers from [start] on. *)
Fixpoint with_ids (start : ObjectId) (docs : list dict) : list dict :=
  match docs with
  | [] => []
  | d :: docs' => (("_id", PObjectId start) :: d) :: with_ids (N.succ start) docs'
  end.

(** The database after one successful [insert_one] of [doc] into the
    collection [name]. *)
Definition inserted (name : string) (doc : dict) (D : Mongo.database) : Mongo.database :=
  Mongo.mkDatabase
    (Mongo.coll_set (Mongo.collections D) name
       (Mongo.collection D name ++ [("_id", PObjectId (Mongo.next_oid D)) :: doc]))
    (N.succ (Mongo.next_oid D)) (tl (Mongo.faults D)).

Fixpoint inserted_all (name : string) (docs : list dict) (D : Mongo.database)
  : Mongo.database :=
  match docs with
  | [] => D
  | d :: docs' => inserted_all name docs' (inserted name d D)
  end.

(** The database after a call that only consumed its schedule entry. *)
Definition advanced (D : Mongo.database) : Mongo.database :=
  Mongo.mkDatabase (Mongo.collections D) (Mongo.next_oid D) (tl (Mongo.faults D)).

(** The category held by a document is a string, or the field is
    missing. *)
Definition category_typed (d : dict) : bool :=
  match dict_lookup d "category" with
  | None => true
  | Some (PStr _) => true
  | Some _ => false
  end.

Definition str_lt (a b : string) : Prop := String.ltb a b = true.

Definition str_le (a b : string) : Prop := String.leb a b = true.

(** The category strings of a collection, one per document that holds
    one, in the order of the documents. *)
Definition categories_of (docs : list dict) : list string :=
  flat_map (fun d => match dict_lookup d "category" with
                     | Some (PStr s) => [s]
                     | _ => []
                     end) docs.

(** The price of a stored document coerces to a float. *)
Definition price_coercible (d : dict) : bool :=
  match py_float (dict_get d "price" (PInt 0)) with
  | Returned _ => true
  | _ => false
  end.

(** The description of a stored document is missing, null or a string. *)
Definition description_typed (d : dict) : bool :=
  match dict_lookup d "description" with
  | None | Some PNone | Some (PStr _) => true
  | Some _ => false
  end.

(** A text with its ASCII letters in lower case. *)
Fixpoint str_lower (s : string) : string :=
  match s with
  | EmptyString => EmptyString
  | String c s' => String (Regex.lower c) (str_lower s')
  end.

(** The public record of a product created from [p] under the identifier
    text [i]. *)
Definition created_record (i : string) (p : Main.Product) : Main.ProductOut :=
  Main.mkProductOut i (Main.p_title p) (Main.p_description p) (Main.p_price p)
    (Main.p_category p) (Main.p_in_stock p).

(** Whether [q] occurs, whatever the case of its letters, in the title or
    in the description of a public record. *)
Definition record_contains_ci (q : string) (p : Main.ProductOut) : bool :=
  Regex.contains_ci q (Main.title p) ||
  match Main.description p with
  | Some s => Regex.contains_ci q s
  | None => false
  end.

End Spec.

(* ===================================================================== *)
(** ** Sample states *)
(* ===================================================================== *)

Module Samples.
Import Py.

Definition empty_store : Mongo.database := Mongo.mkDatabase [] 0%N [].

(** A document without dots in its texts. *)
Definition plain_tee : dict :=
  [ ("_id", PObjectId 7%N);
    ("title", PStr "Plain Tee");
    ("description", PStr "Soft cotton tee");
    ("price", PFloat (f64_of_decimal 1499 2));
    ("category", PStr "Clothes");
    ("in_stock", PBool true) ].

(** A document that lacks [title]. *)
Definition untitled : dict :=
  [ ("_id", PObjectId 8%N);
    ("description", PStr "No name yet");
    ("price", PInt 3);
    ("category", PStr "Home");
    ("in_stock", PBool true) ].

(** A document that holds nothing but its identifier, title and
    category. *)
Definition bare : dict :=
  [ ("_id", PObjectId 9%N);
    ("title", PStr "Mug");
    ("category", PStr "Home") ].


(** A document whose category is stored as null. *)
Definition uncategorised : dict :=
  [ ("_id", PObjectId 12%N);
    ("title", PStr "Mystery Item");
    ("price", PInt 1);
    ("category", PNone) ].

(** A store in which a null category stands beside a string category. *)
Definition null_category_store : Mongo.database :=
  Mongo.mkDatabase [("product", [uncategorised; plain_tee])] 13%N [].

(** A store whose only category is null. *)
Definition lone_null_store : Mongo.database :=
  Mongo.mkDatabase [("product", [uncategorised])] 13%N [].

Definition refused : string :=
  "localhost:27017: [Errno 111] Connection refused, Timeout: 30s, Topology Description: <TopologyDescription id: 65f0, topology_type: Unknown>".

(** A store that holds the five samples under the identifiers [ids]. *)
Definition seeded_docs (i1 i2 i3 i4 i5 : ObjectId) : list dict :=
  match Main.samples with
  | [s1; s2; s3; s4; s5] =>
      [ ("_id", PObjectId i1) :: s1; ("_id", PObjectId i2) :: s2;
        ("_id", PObjectId i3) :: s3; ("_id", PObjectId i4) :: s4;
        ("_id", PObjectId i5) :: s5 ]
  | _ => []
  end.

Definition untitled_store : Mongo.database :=
  Mongo.mkDatabase [("product", [plain_tee; untitled])] 10%N [].

Definition failing_store : Mongo.database :=
  Mongo.mkDatabase [] 0%N [Some refused].

End Samples.

(* ===================================================================== *)
(** ** Properties *)
(* ===================================================================== *)

Import Py Handler Database Main.

(** *** Empty parameters *)

(** C9. An empty-string parameter is treated as an omitted one: with
    [category] empty the list operation runs exactly as without a
    category, and with [q] empty exactly as without a search term, on
    every store state; both already at the level of the filter built. *)
Theorem list_products_empty_as_omitted :
  forall (category_ q : option string) (db : db_state),
    list_products_filter (Some EmptyString) q = list_products_filter None q /\
    list_products_filter category_ (Some EmptyString) = list_products_filter category_ None /\
    list_products (Some EmptyString) q db = list_products None q db /\
    list_products category_ (Some EmptyString) db = list_products category_ None db.
Proof.
  intros category_ q db.
  assert (Hc : list_products_filter (Some EmptyString) q = list_products_filter None q)
    by reflexivity.
  assert (Hq : list_products_filter category_ (Some EmptyString)
               = list_products_filter category_ None) by reflexivity.
  unfold list_products. rewrite Hc, Hq. repeat split; reflexivity.
Qed.

(** *** Seeding against an unavailable store *)

(** C7. With the store handle unavailable the count check yields 0, the
    first insert raises, and the seed operation surfaces a server error
    (status 500); it never returns a response, so never reports
    [seeded=true]. *)
Theorem seed_products_unavailable :
  count_products None = (Returned 0, None) /\
  (exists msg, insert_sample (hd [] samples) None
               = (Raised (Exc BaseException_Exception msg), None)) /\
  seed_products None = (Raised (HTTPException 500 "Database not available"), None) /\
  (forall r db', seed_products None <> (Returned r, db')).
Proof.
  split; [reflexivity|].
  split; [eexists; reflexivity|].
  split; [reflexivity | intros r db' H; vm_compute in H; discriminate H].
Qed.

(** *** Running the store *)

Lemma take_fault_eq (D : Mongo.database) :
  Mongo.take_fault D = (hd None (Mongo.faults D), Spec.advanced D).
Proof.
  destruct D as [cs n fs]; destruct fs as [|f fs]; reflexivity.
Qed.

Lemma store_call_ok {A} (body : Mongo.database -> outcome A * Mongo.database)
      (D : Mongo.database) :
  hd None (Mongo.faults D) = None ->
  Mongo.store_call body D = body (Spec.advanced D).
Proof.
  intros H. unfold Mongo.store_call. rewrite take_fault_eq, H. reflexivity.
Qed.

Lemma store_call_fault {A} (body : Mongo.database -> outcome A * Mongo.database)
      (D : Mongo.database) (msg : string) :
  hd None (Mongo.faults D) = Some msg ->
  Mongo.store_call body D = (Raised (Exc OperationFailure msg), Spec.advanced D).
Proof.
  intros H. unfold Mongo.store_call. rewrite take_fault_eq, H. reflexivity.
Qed.

Lemma coll_lookup_set (cs : list (string * list dict)) (name : string)
      (docs : list dict) :
  Mongo.coll_lookup (Mongo.coll_set cs name docs) name = docs.
Proof.
  induction cs as [|[n old] cs IH]; simpl.
  - now rewrite String.eqb_refl.
  - destruct (String.eqb n name) eqn:E; simpl; rewrite E; auto.
Qed.

Lemma filter_docs_all (docs : list dict) :
  Mongo.filter_docs Mongo.QAll docs = Returned docs.
Proof.
  induction docs as [|d docs IH]; simpl; [reflexivity | now rewrite IH].
Qed.

Lemma no_fault_head (k : nat) (fs : list (option string)) :
  Spec.no_fault_within (S k) fs = true ->
  hd None fs = None /\ Spec.no_fault_within k (tl fs) = true.
Proof.
  unfold Spec.no_fault_within. destruct fs as [|[m|] fs]; simpl.
  - intros _. split; [reflexivity | now destruct k].
  - discriminate.
  - auto.
Qed.

Lemma count_products_ok (D : Mongo.database) :
  hd None (Mongo.faults D) = None ->
  count_products (Some D)
  = (Returned (length (Mongo.collection D "product")), Some (Spec.advanced D)).
Proof.
  intros H. unfold count_products, on_db, Mongo.count_documents.
  rewrite (store_call_ok _ _ H). cbn [Mongo.parse_filter Mongo.parse_filter_val obind].
  unfold Mongo.parse_filter. cbn [Mongo.parse_filter_val obind].
  rewrite filter_docs_all. reflexivity.
Qed.

Lemma insert_sample_ok (d : dict) (D : Mongo.database) :
  dict_lookup d "_id" = None ->
  hd None (Mongo.faults D) = None ->
  insert_sample d (Some D) = (Returned tt, Some (Spec.inserted "product" d D)).
Proof.
  intros Hid H. unfold insert_sample, bind, create_document, on_db, Mongo.insert_one.
  rewrite (store_call_ok _ _ H), Hid. reflexivity.
Qed.

Lemma insert_sample_fault (d : dict) (D : Mongo.database) (msg : string) :
  hd None (Mongo.faults D) = Some msg ->
  insert_sample d (Some D)
  = (Raised (Exc OperationFailure msg), Some (Spec.advanced D)).
Proof.
  intros H. unfold insert_sample, bind, create_document, on_db, Mongo.insert_one.
  rewrite (store_call_fault _ _ _ H). reflexivity.
Qed.

Lemma collection_inserted (name : string) (d : dict) (D : Mongo.database) :
  Mongo.collection (Spec.inserted name d D) name
  = Mongo.collection D name ++ [("_id", PObjectId (Mongo.next_oid D)) :: d].
Proof.
  unfold Mongo.collection at 1. simpl. apply coll_lookup_set.
Qed.

Lemma inserted_all_spec (name : string) (l : list dict) :
  forall D,
    Mongo.collection (Spec.inserted_all name l D) name
    = Mongo.collection D name ++ Spec.with_ids (Mongo.next_oid D) l /\
    Mongo.next_oid (Spec.inserted_all name l D)
    = (Mongo.next_oid D + N.of_nat (length l))%N /\
    Mongo.faults (Spec.inserted_all name l D) = skipn (length l) (Mongo.faults D).
Proof.
  induction l as [|d l IH]; intros D.
  - simpl. rewrite app_nil_r, N.add_0_r. auto.
  - cbn [Spec.inserted_all Spec.with_ids length].
    destruct (IH (Spec.inserted name d D)) as (Hc & Hn & Hf).
    rewrite Hc, Hn, Hf, collection_inserted. cbn [Spec.inserted Mongo.next_oid Mongo.faults].
    rewrite <- app_assoc. repeat split.
    + rewrite Nat2N.inj_succ. lia.
    + destruct (Mongo.faults D); simpl; [now destruct (length l) | reflexivity].
Qed.

(** A loop of inserts that meets no failure inserts every document. *)
Lemma seed_loop_ok (l : list dict) :
  forall D,
    Forall (fun d => dict_lookup d "_id" = None) l ->
    Spec.no_fault_within (length l) (Mongo.faults D) = true ->
    for_each l insert_sample (Some D)
    = (Returned tt, Some (Spec.inserted_all "product" l D)).
Proof.
  induction l as [|d l IH]; intros D Hids Hf.
  - reflexivity.
  - inversion Hids as [|? ? Hd Hl]; subst.
    apply no_fault_head in Hf. destruct Hf as [Hh Ht].
    cbn [for_each]. unfold bind at 1. rewrite (insert_sample_ok _ _ Hd Hh).
    apply IH; [assumption | exact Ht].
Qed.

(** A loop of inserts whose [k]-th call (counting from 0) is the first to
    fail keeps the [k] documents already inserted and raises. *)
Lemma seed_loop_fault (k : nat) :
  forall (l : list dict) (D : Mongo.database) (msg : string) (rest : list (option string)),
    Forall (fun d => dict_lookup d "_id" = None) l ->
    k < length l ->
    Mongo.faults D = repeat None k ++ Some msg :: rest ->
    for_each l insert_sample (Some D)
    = (Raised (Exc OperationFailure msg),
       Some (Spec.advanced (Spec.inserted_all "product" (firstn k l) D))).
Proof.
  induction k as [|k IH]; intros l D msg rest Hids Hk Hf.
  - destruct l as [|d l]; [simpl in Hk; lia|].
    cbn [for_each firstn Spec.inserted_all]. unfold bind at 1.
    rewrite (insert_sample_fault d D msg); [reflexivity | now rewrite Hf].
  - destruct l as [|d l]; [simpl in Hk; lia|].
    inversion Hids as [|? ? Hd Hl]; subst.
    cbn [for_each firstn Spec.inserted_all]. unfold bind at 1.
    rewrite (insert_sample_ok d D Hd); [| now rewrite Hf].
    apply (IH l (Spec.inserted "product" d D) msg rest Hl).
    + simpl in Hk. lia.
    + cbn [Spec.inserted Mongo.faults]. now rewrite Hf.
Qed.

(** A loop of inserts that returns has inserted every document. *)
Lemma seed_loop_returned (l : list dict) :
  forall D db',
    Forall (fun d => dict_lookup d "_id" = None) l ->
    for_each l insert_sample (Some D) = (Returned tt, db') ->
    db' = Some (Spec.inserted_all "product" l D).
Proof.
  induction l as [|d l IH]; intros D db' Hids Hrun.
  - cbn in Hrun. now inversion Hrun.
  - inversion Hids as [|? ? Hd Hl]; subst.
    cbn [for_each] in Hrun. unfold bind at 1 in Hrun.
    destruct (hd None (Mongo.faults D)) as [msg|] eqn:Hh.
    + rewrite (insert_sample_fault d D msg Hh) in Hrun. discriminate.
    + rewrite (insert_sample_ok d D Hd Hh) in Hrun.
      cbn [Spec.inserted_all]. now apply IH.
Qed.

Lemma samples_fresh : Forall (fun d => dict_lookup d "_id" = None) samples.
Proof. repeat constructor. Qed.

Lemma no_fault_within_le (k k' : nat) (fs : list (option string)) :
  k <= k' ->
  Spec.no_fault_within k' fs = true -> Spec.no_fault_within k fs = true.
Proof.
  unfold Spec.no_fault_within. revert k' fs.
  induction k as [|k IH]; intros k' fs Hle H; [reflexivity|].
  destruct k' as [|k']; [lia|].
  destruct fs as [|f fs]; [reflexivity|].
  simpl in *. apply andb_true_iff in H. destruct H as [Hf H].
  rewrite Hf. apply (IH k'); [lia | exact H].
Qed.

Lemma no_fault_skipn (n : nat) :
  forall fs, Spec.no_fault_within (S n) fs = true -> hd None (skipn n fs) = None.
Proof.
  induction n as [|n IH]; intros fs H.
  - now apply no_fault_head in H.
  - destruct fs as [|f fs]; [reflexivity|].
    apply no_fault_head in H. destruct H as [_ H]. simpl. now apply IH.
Qed.

Lemma seed_products_run (D : Mongo.database) :
  hd None (Mongo.faults D) = None ->
  seed_products (Some D) =
  if Nat.ltb 0 (length (Mongo.collection D "product")) then
    (Returned [("status", PStr "ok"); ("seeded", PBool false);
               ("existing", PInt (Z.of_nat (length (Mongo.collection D "product"))))],
     Some (Spec.advanced D))
  else
    match for_each samples insert_sample (Some (Spec.advanced D)) with
    | (Returned _, db') =>
        (Returned [("status", PStr "ok"); ("seeded", PBool true); ("count", PInt 5)], db')
    | (Raised e, db') => (Raised (HTTPException 500 (str_exn e)), db')
    | (Unmodelled, db') => (Unmodelled, db')
    end.
Proof.
  intros H. unfold seed_products, try_except, bind at 1.
  rewrite (count_products_ok D H).
  destruct (Nat.ltb 0 (length (Mongo.collection D "product"))); [reflexivity|].
  unfold bind.
  destruct (for_each samples insert_sample (Some (Spec.advanced D))) as [[u|e|] db'];
    reflexivity.
Qed.

(** *** Seeding *)

(** C2. Seeding an empty, available store that meets no failure inserts
    the five samples and reports [seeded=true, count=5]; seeding again
    inserts nothing and reports [seeded=false, existing=5].  In general,
    whenever the collection holds a document, seeding leaves the
    collections as they are and reports [seeded=false] with the count. *)
Theorem seed_products_twice :
  (forall D : Mongo.database,
      Mongo.collection D "product" = [] ->
      Spec.no_fault_within 7 (Mongo.faults D) = true ->
      let D1 := Spec.inserted_all "product" samples (Spec.advanced D) in
      seed_products (Some D)
      = (Returned [("status", PStr "ok"); ("seeded", PBool true); ("count", PInt 5)],
         Some D1) /\
      Mongo.collection D1 "product" = Spec.with_ids (Mongo.next_oid D) samples /\
      length (Mongo.collection D1 "product") = 5 /\
      seed_products (Some D1)
      = (Returned [("status", PStr "ok"); ("seeded", PBool false); ("existing", PInt 5)],
         Some (Spec.advanced D1)) /\
      Mongo.collections (Spec.advanced D1) = Mongo.collections D1) /\
  (forall D : Mongo.database,
      hd None (Mongo.faults D) = None ->
      0 < length (Mongo.collection D "product") ->
      seed_products (Some D)
      = (Returned [("status", PStr "ok"); ("seeded", PBool false);
                   ("existing", PInt (Z.of_nat (length (Mongo.collection D "product"))))],
         Some (Spec.advanced D)) /\
      Mongo.collections (Spec.advanced D) = Mongo.collections D).
Proof.
  split.
  - intros D Hempty Hf D1.
    destruct (no_fault_head _ _ Hf) as [Hh Ht].
    assert (Hloop : for_each samples insert_sample (Some (Spec.advanced D))
                    = (Returned tt, Some D1)).
    { apply seed_loop_ok; [exact samples_fresh|].
      apply (no_fault_within_le 5 6); [lia | exact Ht]. }
    destruct (inserted_all_spec "product" samples (Spec.advanced D)) as (Hc & _ & Hfs).
    fold D1 in Hc, Hfs.
    assert (Hc1 : Mongo.collection D1 "product" = Spec.with_ids (Mongo.next_oid D) samples).
    { rewrite Hc. unfold Mongo.collection in *. cbn [Spec.advanced Mongo.collections Mongo.next_oid].
      now rewrite Hempty. }
    split.
    { rewrite (seed_products_run D Hh), Hempty. cbn [length Nat.ltb Nat.leb].
      now rewrite Hloop. }
    split; [exact Hc1|].
    split; [now rewrite Hc1|].
    split; [|reflexivity].
    rewrite seed_products_run.
    + now rewrite Hc1.
    + rewrite Hfs. cbn [Spec.advanced Mongo.faults].
      apply (no_fault_skipn 5). exact Ht.
  - intros D Hh Hpos. split; [|reflexivity].
    rewrite (seed_products_run D Hh).
    apply Nat.ltb_lt in Hpos. now rewrite Hpos.
Qed.

Lemma seed_products_twice_witness :
  seed_products (Some Samples.empty_store)
  = (Returned [("status", PStr "ok"); ("seeded", PBool true); ("count", PInt 5)],
     Some (Spec.inserted_all "product" samples (Spec.advanced Samples.empty_store))) /\
  seed_products (Some (Spec.inserted_all "product" samples (Spec.advanced Samples.empty_store)))
  = (Returned [("status", PStr "ok"); ("seeded", PBool false); ("existing", PInt 5)],
     Some (Spec.advanced
             (Spec.inserted_all "product" samples (Spec.advanced Samples.empty_store)))).
Proof.
  destruct (proj1 seed_products_twice Samples.empty_store eq_refl eq_refl)
    as (H1 & _ & _ & H2 & _).
  split; [exact H1 | exact H2].
Defined.

(** C10. The seed operation inserts the samples one at a time: when the
    first [k] inserts succeed and the next one raises, the [k] samples
    already inserted stay in the collection and the operation surfaces a
    server error carrying the store's message; and whenever it reports
    [seeded=true], all five samples have been inserted. *)
Theorem seed_products_not_atomic :
  (forall (D : Mongo.database) (k : nat) (msg : string) (rest : list (option string)),
      Mongo.collection D "product" = [] ->
      k < length samples ->
      Mongo.faults D = None :: repeat None k ++ Some msg :: rest ->
      exists D',
        seed_products (Some D) = (Raised (HTTPException 500 msg), Some D') /\
        Mongo.collection D' "product" = Spec.with_ids (Mongo.next_oid D) (firstn k samples) /\
        length (Mongo.collection D' "product") = k /\
        Mongo.faults D' = rest) /\
  (forall (D : Mongo.database) (r : dict) (db' : db_state),
      seed_products (Some D) = (Returned r, db') ->
      dict_lookup r "seeded" = Some (PBool true) ->
      exists D',
        db' = Some D' /\
        Mongo.collection D' "product"
        = Mongo.collection D "product" ++ Spec.with_ids (Mongo.next_oid D) samples).
Proof.
  split.
  - intros D k msg rest Hempty Hk Hf.
    exists (Spec.advanced (Spec.inserted_all "product" (firstn k samples) (Spec.advanced D))).
    assert (Hh : hd None (Mongo.faults D) = None) by now rewrite Hf.
    destruct (inserted_all_spec "product" (firstn k samples) (Spec.advanced D))
      as (Hc & _ & Hfs).
    assert (Hcoll : Mongo.collection
                      (Spec.advanced (Spec.inserted_all "product" (firstn k samples)
                                        (Spec.advanced D))) "product"
                    = Spec.with_ids (Mongo.next_oid D) (firstn k samples)).
    { unfold Mongo.collection in *. cbn [Spec.advanced Mongo.collections] in *.
      rewrite Hc, Hempty. reflexivity. }
    split; [|split; [exact Hcoll | split]].
    + rewrite (seed_products_run D Hh), Hempty. cbn [length Nat.ltb Nat.leb].
      rewrite (seed_loop_fault k samples (Spec.advanced D) msg rest samples_fresh Hk);
        [reflexivity|].
      cbn [Spec.advanced Mongo.faults]. now rewrite Hf.
    + rewrite Hcoll.
      assert (Hlen : forall l n, length (Spec.with_ids n l) = length l).
      { induction l as [|d l IH]; intros n; simpl; [reflexivity | now rewrite IH]. }
      rewrite Hlen, length_firstn. lia.
    + cbn [Spec.advanced Mongo.faults]. rewrite Hfs.
      cbn [Spec.advanced Mongo.faults]. rewrite Hf. cbn [tl].
      rewrite length_firstn, (Nat.min_l k) by lia.
      rewrite <- (repeat_length (@None string) k) at 1.
      now rewrite skipn_app, skipn_all, Nat.sub_diag.
  - intros D r db' Hrun Hseeded.
    destruct (hd None (Mongo.faults D)) as [msg|] eqn:Hh.
    + unfold seed_products, try_except, bind, count_products, on_db,
        Mongo.count_documents in Hrun.
      rewrite (store_call_fault _ _ _ Hh) in Hrun. discriminate.
    + rewrite (seed_products_run D Hh) in Hrun.
      destruct (Nat.ltb 0 (length (Mongo.collection D "product"))).
      * inversion Hrun; subst. discriminate.
      * destruct (for_each samples insert_sample (Some (Spec.advanced D)))
          as [[[]|e|] db1] eqn:Hloop; try discriminate.
        apply seed_loop_returned in Hloop; [|exact samples_fresh].
        inversion Hrun; subst.
        eexists; split; [reflexivity|].
        destruct (inserted_all_spec "product" samples (Spec.advanced D)) as (Hc & _).
        exact Hc.
Qed.

Lemma seed_products_not_atomic_witness :
  (exists D',
      seed_products (Some (Mongo.mkDatabase [] 0%N [None; None; None; Some "write refused"]))
      = (Raised (HTTPException 500 "write refused"), Some D') /\
      Mongo.collection D' "product" = Spec.with_ids 0%N (firstn 2 samples)) /\
  (exists D',
      snd (seed_products (Some Samples.empty_store)) = Some D' /\
      Mongo.collection D' "product" = Spec.with_ids 0%N samples).
Proof.
  split.
  - destruct (proj1 seed_products_not_atomic
                (Mongo.mkDatabase [] 0%N [None; None; None; Some "write refused"])
                2 "write refused" [] eq_refl) as (D' & H1 & H2 & _).
    + apply Nat.ltb_lt. reflexivity.
    + reflexivity.
    + exists D'. split; [exact H1 | exact H2].
  - destruct (proj2 seed_products_not_atomic Samples.empty_store
                [("status", PStr "ok"); ("seeded", PBool true); ("count", PInt 5)]
                (snd (seed_products (Some Samples.empty_store))) eq_refl eq_refl)
      as (D' & H1 & H2).
    exists D'. split; [exact H1 | exact H2].
Defined.

(** *** Store failures *)

(** The claim C3 as worded fails: a store failure with a long message is
    surfaced by the category listing with that message in full, which is
    longer than 50 characters and differs from its 50-character
    prefix. *)
Lemma store_error_surfaced_in_full :
  fst (list_categories (Some Samples.failing_store))
  = Raised (HTTPException 500 Samples.refused) /\
  50 < String.length Samples.refused /\
  str_prefix 50 Samples.refused <> Samples.refused.
Proof.
  split; [reflexivity|].
  split; [apply Nat.ltb_lt; reflexivity|].
  intros H. vm_compute in H. discriminate H.
Qed.

(** C3, amended. When a call to the store (distinct, count, insert) raises
    with message [msg], the catalog operation surfaces a server error
    (status 500) whose detail is [msg] itself, in full and whatever its
    length; this holds for the category listing, for the count and for an
    insert of the seed operation, and for the insert of product
    creation. *)
Theorem store_error_detail :
  forall (D : Mongo.database) (msg : string),
    hd None (Mongo.faults D) = Some msg ->
    list_categories (Some D) = (Raised (HTTPException 500 msg), Some (Spec.advanced D)) /\
    seed_products (Some D) = (Raised (HTTPException 500 msg), Some (Spec.advanced D)) /\
    (forall p, create_product p (Some D)
               = (Raised (HTTPException 500 msg), Some (Spec.advanced D))) /\
    (forall D0 : Mongo.database,
        Mongo.collection D0 "product" = [] ->
        Mongo.faults D0 = None :: Mongo.faults D ->
        fst (seed_products (Some D0)) = Raised (HTTPException 500 msg)).
Proof.
  intros D msg H.
  split; [|split; [|split]].
  - unfold list_categories, try_except, bind, distinct_categories, on_db, Mongo.distinct.
    rewrite (store_call_fault _ _ _ H). reflexivity.
  - unfold seed_products, try_except, bind, count_products, on_db, Mongo.count_documents.
    rewrite (store_call_fault _ _ _ H). reflexivity.
  - intros p. unfold create_product, try_except, bind, create_document, on_db,
      Mongo.insert_one.
    rewrite (store_call_fault _ _ _ H). reflexivity.
  - intros D0 Hempty Hf.
    assert (Hh : hd None (Mongo.faults D0) = None) by now rewrite Hf.
    rewrite (seed_products_run D0 Hh), Hempty. cbn [length Nat.ltb Nat.leb].
    cbn [samples for_each]. unfold bind at 1.
    rewrite (insert_sample_fault _ (Spec.advanced D0) msg); [reflexivity|].
    cbn [Spec.advanced Mongo.faults]. now rewrite Hf.
Qed.

Lemma store_error_detail_witness :
  list_categories (Some Samples.failing_store)
  = (Raised (HTTPException 500 Samples.refused), Some (Spec.advanced Samples.failing_store)).
Proof.
  exact (proj1 (store_error_detail Samples.failing_store Samples.refused eq_refl)).
Defined.

(** *** The public record of a stored document *)

Lemma product_out_returns (d : dict) (i t c : string) (f : float64) :
  py_str (dict_get d "_id" PNone) = Returned i ->
  dict_lookup d "title" = Some (PStr t) ->
  dict_lookup d "category" = Some (PStr c) ->
  Spec.description_typed d = true ->
  py_float (dict_get d "price" (PInt 0)) = Returned f ->
  product_out d
  = Returned (mkProductOut i t
                (match dict_lookup d "description" with
                 | Some (PStr s) => Some s
                 | _ => None
                 end)
                f c (py_bool (dict_get d "in_stock" (PBool true)))).
Proof.
  intros Hi Ht Hc Hd Hf. unfold product_out, ProductOut_init.
  rewrite Hi, Hf. cbn [obind]. unfold dict_get at 1. rewrite Ht.
  unfold dict_get at 2. rewrite Hc.
  unfold Spec.description_typed in Hd. unfold dict_get at 1.
  destruct (dict_lookup d "description") as [[| | | | s | | |]|];
    try discriminate Hd; reflexivity.
Qed.

(** The claim C4 as worded fails: a document without [title] has no
    public record, its construction raises a validation error, and a
    listing that meets the document fails as a whole. *)
Lemma untitled_document_rejected :
  dict_lookup Samples.untitled "title" = None /\
  (exists msg, product_out Samples.untitled = Raised (Exc ValidationError msg)) /\
  (forall p, product_out Samples.untitled <> Returned p) /\
  (exists msg,
      fst (list_products None None (Some Samples.untitled_store))
      = Raised (Exc ValidationError msg)).
Proof.
  split; [reflexivity|].
  split; [eexists; reflexivity|].
  split; [intros p H; vm_compute in H; discriminate H|].
  eexists; reflexivity.
Qed.

(** C4, amended. [title] is a required string of the public record: for
    every stored document that lacks [title], normalization produces no
    record, and it raises a validation error as soon as the identifier
    and the price coerce and neither the description nor the category is
    a number; a stored title that is a string is passed through
    unchanged. *)
Theorem product_out_title :
  forall d : dict,
    (dict_lookup d "title" = None ->
     (forall p, product_out d <> Returned p) /\
     (forall i f,
         py_str (dict_get d "_id" PNone) = Returned i ->
         py_float (dict_get d "price" (PInt 0)) = Returned f ->
         Spec.settled_field d "description" = true ->
         Spec.settled_field d "category" = true ->
         exists msg, product_out d = Raised (Exc ValidationError msg))) /\
    (forall t i c f,
        dict_lookup d "title" = Some (PStr t) ->
        py_str (dict_get d "_id" PNone) = Returned i ->
        dict_lookup d "category" = Some (PStr c) ->
        Spec.description_typed d = true ->
        py_float (dict_get d "price" (PInt 0)) = Returned f ->
        exists p, product_out d = Returned p /\ title p = t).
Proof.
  intros d. split.
  - intros Hno.
    assert (Ht0 : dict_get d "title" PNone = PNone)
      by (unfold dict_get; now rewrite Hno).
    split.
    + intros p Hp. unfold product_out, ProductOut_init in Hp.
      destruct (py_str (dict_get d "_id" PNone)) as [i|e|]; try discriminate Hp.
      destruct (py_float (dict_get d "price" (PInt 0))) as [f|e|]; try discriminate Hp.
      cbn [obind] in Hp. rewrite Ht0 in Hp. cbn [validate_str] in Hp.
      match type of Hp with
      | (if ?b then _ else _) = _ => destruct b; discriminate Hp
      end.
    + intros i f Hi Hf Hde Hca. unfold product_out, ProductOut_init.
      rewrite Hi, Hf. cbn [obind]. rewrite Ht0. cbn [validate_str].
      assert (Hu1 : is_unsettled (validate_optional_str (dict_get d "description" PNone))
                    = false).
      { unfold Spec.settled_field in Hde. unfold dict_get.
        destruct (dict_lookup d "description") as [[| | | | s | | |]|];
          try discriminate Hde; reflexivity. }
      assert (Hu2 : is_unsettled (validate_str (dict_get d "category" PNone)) = false).
      { unfold Spec.settled_field in Hca. unfold dict_get.
        destruct (dict_lookup d "category") as [[| | | | s | | |]|];
          try discriminate Hca; reflexivity. }
      rewrite Hu1, Hu2. cbn [is_unsettled orb]. eexists. reflexivity.
  - intros t i c f Ht Hi Hc Hd Hf.
    eexists. split; [apply (product_out_returns d i t c f); assumption | reflexivity].
Qed.

Lemma product_out_title_witness :
  (forall p, product_out Samples.untitled <> Returned p) /\
  (exists msg, product_out Samples.untitled = Raised (Exc ValidationError msg)) /\
  exists p, product_out Samples.plain_tee = Returned p /\ title p = "Plain Tee".
Proof.
  split; [|split].
  - exact (proj1 (proj1 (product_out_title Samples.untitled) eq_refl)).
  - exact (proj2 (proj1 (product_out_title Samples.untitled) eq_refl)
             "000000000000000000000008" (f64_of_Z 3) eq_refl eq_refl eq_refl eq_refl).
  - exact (proj2 (product_out_title Samples.plain_tee)
             "Plain Tee" "000000000000000000000007" "Clothes"
             (f64_of_decimal 1499 2) eq_refl eq_refl eq_refl eq_refl eq_refl).
Defined.

(** The claim C5 as worded fails in its last part: for a document that
    lacks [description] the record holds a null description, and the
    serialised record carries the key [description] with the value null
    rather than leaving it out. *)
Lemma missing_description_is_null :
  dict_lookup Samples.bare "description" = None /\
  (exists p,
      product_out Samples.bare = Returned p /\
      description p = None /\
      dict_lookup (ProductOut_dump p) "description" = Some PNone /\
      dict_lookup (ProductOut_dump p) "description" <> None).
Proof.
  split; [reflexivity|].
  eexists. split; [reflexivity|].
  split; [reflexivity|]. split; [reflexivity | discriminate].
Qed.

(** C5, amended. For every stored document whose identifier renders,
    whose title and category are strings and whose description and price
    are of their declared kinds, normalization returns a record in which a
    missing [price] has become 0, a missing [in_stock] has become true,
    and a missing [description] has become null, carried as an explicit
    null by the serialised record (neither left out nor an empty
    string). *)
Theorem product_out_defaults :
  forall (d : dict) (i t c : string),
    py_str (dict_get d "_id" PNone) = Returned i ->
    dict_lookup d "title" = Some (PStr t) ->
    dict_lookup d "category" = Some (PStr c) ->
    Spec.description_typed d = true ->
    Spec.price_coercible d = true ->
    exists p,
      product_out d = Returned p /\
      (dict_lookup d "price" = None -> price p = f64_zero) /\
      (dict_lookup d "in_stock" = None -> in_stock p = true) /\
      (dict_lookup d "description" = None ->
       description p = None /\
       dict_lookup (ProductOut_dump p) "description" = Some PNone).
Proof.
  intros d i t c Hi Ht Hc Hd Hp.
  unfold Spec.price_coercible in Hp.
  destruct (py_float (dict_get d "price" (PInt 0))) as [f|e|] eqn:Hf;
    try discriminate Hp.
  eexists. split; [apply (product_out_returns d i t c f); assumption|].
  cbn [price in_stock description ProductOut_dump dict_lookup].
  split; [|split].
  - intros Hno. unfold dict_get in Hf. rewrite Hno in Hf.
    vm_compute in Hf. now inversion Hf.
  - intros Hno. unfold dict_get. now rewrite Hno.
  - intros Hno. rewrite Hno. split; reflexivity.
Qed.

Lemma product_out_defaults_witness :
  exists p,
    product_out Samples.bare = Returned p /\
    price p = f64_zero /\ in_stock p = true /\ description p = None.
Proof.
  destruct (product_out_defaults Samples.bare "000000000000000000000009" "Mug" "Home"
              eq_refl eq_refl eq_refl eq_refl eq_refl) as (p & Hp & H1 & H2 & H3).
  exists p. split; [exact Hp|].
  split; [exact (H1 eq_refl)|]. split; [exact (H2 eq_refl)|].
  exact (proj1 (H3 eq_refl)).
Defined.

(** *** Listing the seeded samples *)

(** C8. Against a store that holds exactly the five samples (under any
    identifiers) and whose next call does not fail, the list operation
    with [category="Food"] and [q="cacao"] returns exactly one product,
    the Gourmet Dark Chocolate entry. *)
Theorem list_products_food_cacao :
  forall (D : Mongo.database) (i1 i2 i3 i4 i5 : ObjectId),
    Mongo.collection D "product" = Samples.seeded_docs i1 i2 i3 i4 i5 ->
    hd None (Mongo.faults D) = None ->
    list_products (Some "Food") (Some "cacao") (Some D)
    = (Returned [ mkProductOut (hex_fixed 24 i5) "Gourmet Dark Chocolate"
                    (Some "70% cacao premium chocolate bar.")
                    (f64_of_decimal 399 2) "Food" true ],
       Some (Spec.advanced D)).
Proof.
  intros D i1 i2 i3 i4 i5 Hdocs Hh.
  unfold list_products, bind, get_documents, on_db, Mongo.find.
  rewrite (store_call_ok _ _ Hh).
  change (Mongo.collection (Spec.advanced D) "product") with (Mongo.collection D "product").
  rewrite Hdocs. vm_compute. reflexivity.
Qed.

Lemma list_products_food_cacao_witness :
  list_products (Some "Food") (Some "cacao")
    (Some (Spec.inserted_all "product" samples Samples.empty_store))
  = (Returned [ mkProductOut "000000000000000000000004" "Gourmet Dark Chocolate"
                  (Some "70% cacao premium chocolate bar.")
                  (f64_of_decimal 399 2) "Food" true ],
     Some (Spec.advanced (Spec.inserted_all "product" samples Samples.empty_store))).
Proof.
  exact (list_products_food_cacao
           (Spec.inserted_all "product" samples Samples.empty_store)
           0%N 1%N 2%N 3%N 4%N eq_refl eq_refl).
Defined.

(** *** Sorting and distinct values *)

Lemma insert_str_perm (x : string) (l : list string) :
  Permutation (insert_str x l) (x :: l).
Proof.
  induction l as [|y l IH]; simpl; [apply Permutation_refl|].
  destruct (String.leb x y); [apply Permutation_refl|].
  apply perm_trans with (y :: x :: l); [now apply perm_skip | apply perm_swap].
Qed.

Lemma sort_str_perm (l : list string) : Permutation (sort_str l) l.
Proof.
  induction l as [|x l IH]; simpl; [constructor|].
  apply perm_trans with (x :: sort_str l); [apply insert_str_perm | now apply perm_skip].
Qed.

Lemma insert_str_sorted (x : string) (l : list string) :
  Sorted Spec.str_le l -> Sorted Spec.str_le (insert_str x l).
Proof.
  induction l as [|y l IH]; intros Hs; simpl.
  - repeat constructor.
  - destruct (String.leb x y) eqn:E.
    + constructor; [exact Hs | constructor; exact E].
    + inversion Hs as [|? ? Hl Hhd]; subst.
      constructor; [now apply IH|].
      assert (Hyx : Spec.str_le y x).
      { destruct (String.leb_total x y) as [H|H]; [congruence | exact H]. }
      destruct l as [|z l]; simpl.
      * constructor; exact Hyx.
      * destruct (String.leb x z); constructor; [exact Hyx|].
        now inversion Hhd.
Qed.

Lemma sort_str_sorted (l : list string) : Sorted Spec.str_le (sort_str l).
Proof.
  induction l as [|x l IH]; simpl; [constructor | now apply insert_str_sorted].
Qed.

Lemma str_le_neq_lt (a b : string) : Spec.str_le a b -> a <> b -> Spec.str_lt a b.
Proof.
  unfold Spec.str_le, Spec.str_lt, String.leb, String.ltb.
  intros Hle Hne. destruct (String.compare a b) eqn:E; try reflexivity.
  - apply String.compare_eq_iff in E. contradiction.
  - discriminate Hle.
Qed.

Lemma sorted_nodup_strict (l : list string) :
  Sorted Spec.str_le l -> NoDup l -> Sorted Spec.str_lt l.
Proof.
  induction l as [|a l IH]; intros Hs Hn; [constructor|].
  inversion Hs as [|? ? Hl Hhd]; subst. inversion Hn as [|? ? Hnotin Hn']; subst.
  constructor; [now apply IH|].
  destruct l as [|b l]; constructor.
  apply str_le_neq_lt; [now inversion Hhd|].
  intros ->. apply Hnotin. now left.
Qed.

Lemma all_strs_map (l : list string) : all_strs (map PStr l) = Some l.
Proof.
  induction l as [|x l IH]; simpl; [reflexivity | now rewrite IH].
Qed.

Lemma filter_map_PStr (x : string) (l : list string) :
  filter (fun y => negb (Mongo.scalar_eqb (PStr x) y)) (map PStr l)
  = map PStr (filter (fun s => negb (String.eqb x s)) l).
Proof.
  induction l as [|y l IH]; [reflexivity|].
  cbn [map filter]. rewrite IH.
  change (Mongo.scalar_eqb (PStr x) (PStr y)) with (String.eqb x y).
  destruct (String.eqb x y); reflexivity.
Qed.

(** The distinct values of a list of strings: the same strings, each
    once. *)
Lemma dedup_strings (l : list string) :
  exists l', Mongo.dedup (map PStr l) = map PStr l' /\
             NoDup l' /\ (forall s, In s l' <-> In s l).
Proof.
  induction l as [|x l (l' & Heq & Hnd & Hin)].
  - exists []. repeat split; auto; constructor.
  - exists (x :: filter (fun s => negb (String.eqb x s)) l').
    cbn [map Mongo.dedup]. rewrite Heq, filter_map_PStr.
    split; [reflexivity|]. split.
    + constructor; [|now apply NoDup_filter].
      rewrite filter_In. intros [_ H]. now rewrite String.eqb_refl in H.
    + intros s. cbn [In]. rewrite filter_In, Hin.
      destruct (String.eqb x s) eqn:E.
      * apply String.eqb_eq in E. simpl. intuition congruence.
      * simpl. intuition.
Qed.

Lemma typed_values (docs : list dict) :
  forallb Spec.category_typed docs = true ->
  flat_map (Mongo.field_values "category") docs = map PStr (Spec.categories_of docs).
Proof.
  induction docs as [|d docs IH]; intros H; [reflexivity|].
  cbn [forallb] in H. apply andb_true_iff in H. destruct H as [Hd H].
  cbn [flat_map Spec.categories_of]. rewrite map_app, (IH H).
  fold (Spec.categories_of docs). f_equal.
  unfold Spec.category_typed in Hd. unfold Mongo.field_values.
  destruct (dict_lookup d "category") as [[| | | | s | | |]|];
    try discriminate Hd; reflexivity.
Qed.

Lemma plain_strings (l : list string) : forallb Mongo.is_plain_scalar (map PStr l) = true.
Proof. induction l as [|x l IH]; simpl; auto. Qed.

Lemma categories_of_In (docs : list dict) (s : string) :
  In s (Spec.categories_of docs) <->
  exists d, In d docs /\ dict_lookup d "category" = Some (PStr s).
Proof.
  unfold Spec.categories_of. rewrite in_flat_map. split.
  - intros (d & Hd & Hs). exists d. split; [exact Hd|].
    destruct (dict_lookup d "category") as [[| | | | s' | | |]|]; simpl in Hs;
      try contradiction.
    destruct Hs as [->|[]]. reflexivity.
  - intros (d & Hd & Hs). exists d. split; [exact Hd|]. rewrite Hs. now left.
Qed.

(** *** Category facets *)

(** The claim C6 as worded fails: it does not hold for every state of the
    collection.  Where a null category stands beside a string category
    the listing fails with a server error instead of returning a
    sequence, and where the only category is null the listing returns
    that null, which is no category string. *)
Lemma null_category_breaks_listing :
  (exists detail,
      fst (list_categories (Some Samples.null_category_store))
      = Raised (HTTPException 500 detail)) /\
  (forall l, fst (list_categories (Some Samples.null_category_store)) <> Returned l) /\
  fst (list_categories (Some Samples.lone_null_store)) = Returned [PNone].
Proof.
  split; [eexists; reflexivity|].
  split; [intros l H; vm_compute in H; discriminate H | reflexivity].
Qed.

(** C6, amended. Without a store handle the category listing returns the
    empty sequence.  With one, when the call meets no failure and the
    categories held by the collection are strings (a document may lack
    the field), it returns a sequence of strings in strictly ascending
    lexicographic order, free of duplicates, whose members are exactly
    the categories held by some document. *)
Theorem list_categories_sorted_distinct :
  list_categories None = (Returned [], None) /\
  (forall D : Mongo.database,
      hd None (Mongo.faults D) = None ->
      forallb Spec.category_typed (Mongo.collection D "product") = true ->
      exists l : list string,
        list_categories (Some D) = (Returned (map PStr l), Some (Spec.advanced D)) /\
        Sorted Spec.str_lt l /\
        NoDup l /\
        (forall s, In s l <->
                   exists d, In d (Mongo.collection D "product") /\
                             dict_lookup d "category" = Some (PStr s))).
Proof.
  split; [reflexivity|].
  intros D Hh Htyped.
  destruct (dedup_strings (Spec.categories_of (Mongo.collection D "product")))
    as (l' & Heq & Hnd & Hin).
  exists (sort_str l').
  assert (Hperm := sort_str_perm l').
  split; [|split; [|split]].
  - unfold list_categories, try_except, bind, distinct_categories, on_db, Mongo.distinct.
    rewrite (store_call_ok _ _ Hh).
    change (Mongo.collection (Spec.advanced D) "product")
      with (Mongo.collection D "product").
    rewrite (typed_values _ Htyped), plain_strings, Heq.
    unfold lift, py_sort. rewrite all_strs_map. reflexivity.
  - apply sorted_nodup_strict; [apply sort_str_sorted|].
    apply (Permutation_NoDup (Permutation_sym Hperm) Hnd).
  - apply (Permutation_NoDup (Permutation_sym Hperm) Hnd).
  - intros s. rewrite <- categories_of_In, <- Hin.
    split; intros H.
    + apply (Permutation_in s Hperm H).
    + apply (Permutation_in s (Permutation_sym Hperm) H).
Qed.

Lemma list_categories_sorted_distinct_witness :
  exists l : list string,
    list_categories (Some (Spec.inserted_all "product" samples Samples.empty_store))
    = (Returned (map PStr l),
       Some (Spec.advanced (Spec.inserted_all "product" samples Samples.empty_store))) /\
    Sorted Spec.str_lt l /\ NoDup l.
Proof.
  destruct (proj2 list_categories_sorted_distinct
              (Spec.inserted_all "product" samples Samples.empty_store)
              eq_refl eq_refl) as (l & H1 & H2 & H3 & _).
  exists l. split; [exact H1 | split; [exact H2 | exact H3]].
Defined.

(** *** Patterns without metacharacters *)

Lemma literal_char_tests (c : ascii) :
  Regex.is_literal_char c = true ->
  Regex.is_ascii7 c = true /\ Ascii.eqb c zero = false /\
  Ascii.eqb c Regex.backslash = false /\ Ascii.eqb c "^"%char = false /\
  Ascii.eqb c "$"%char = false /\ Ascii.eqb c "."%char = false /\
  Ascii.eqb c "["%char = false /\ Ascii.eqb c "|"%char = false /\
  Ascii.eqb c "("%char = false /\ Ascii.eqb c ")"%char = false /\
  Ascii.eqb c "?"%char = false /\ Ascii.eqb c "*"%char = false /\
  Ascii.eqb c "+"%char = false /\ Ascii.eqb c "{"%char = false.
Proof.
  unfold Regex.is_literal_char. cbn [existsb].
  rewrite !andb_true_iff, !negb_true_iff, !orb_false_iff. tauto.
Qed.

Lemma parse_literal (p : string) :
  forall (top : Regex.frame) (last : Regex.last_item),
    Regex.is_literal p = true ->
    Regex.parse p [] top last
    = Returned (Regex.frame_regex
                  (Regex.mkFrame (Regex.closed top)
                     (rev (map Regex.Chr (list_ascii_of_string p)) ++ Regex.cur top))).
Proof.
  induction p as [|c p IH]; intros top last Hlit.
  - destruct top; reflexivity.
  - cbn [Regex.is_literal Regex.all_chars] in Hlit.
    apply andb_true_iff in Hlit. destruct Hlit as [Hc Hp].
    destruct (literal_char_tests c Hc)
      as (Ha & Hz & Hb & H1 & H2 & H3 & H4 & H5 & H6 & H7 & H8 & H9 & H10 & H11).
    cbn [Regex.parse]. unfold Regex.is_quantifier.
    rewrite Hb, H6, H7, H5, H9, H10, H8, H3, H1, H2, H4, H11, Ha, Hz.
    cbn [orb negb].
    rewrite (IH (Regex.push (Regex.Chr c) top) Regex.LAtom Hp).
    cbn [list_ascii_of_string map rev Regex.push Regex.closed Regex.cur].
    now rewrite <- app_assoc.
Qed.

(** A pattern without metacharacters compiles to its literal reading. *)
Lemma compile_literal (p : string) :
  Regex.is_literal p = true -> Regex.compile p = Returned (Regex.literal p).
Proof.
  intros H. unfold Regex.compile. rewrite (parse_literal p _ _ H).
  unfold Regex.frame_regex, Regex.literal. cbn [Regex.empty_frame Regex.closed Regex.cur fold_left].
  now rewrite app_nil_r, rev_involutive.
Qed.

Lemma matches_literal (p : string) :
  forall (b : bool) (s : string),
    Regex.matches true (Regex.literal p) b s (fun _ _ => true) = Regex.prefix_ci p s.
Proof.
  unfold Regex.literal.
  induction p as [|a p IH]; intros b s.
  - destruct s; reflexivity.
  - cbn [list_ascii_of_string map Regex.seq_regex fold_right Regex.matches].
    destruct s as [|x s]; [reflexivity|].
    cbn [Regex.prefix_ci Regex.chr_match].
    fold (Regex.seq_regex (map Regex.Chr (list_ascii_of_string p))).
    now rewrite IH.
Qed.

(** Searching for it is searching for a literal substring. *)
Lemma search_literal (p s : string) (b : bool) :
  Regex.search_at true (Regex.literal p) b s = Regex.contains_ci p s.
Proof.
  revert b. induction s as [|x s IH]; intros b.
  - cbn [Regex.search_at Regex.contains_ci]. now rewrite matches_literal.
  - cbn [Regex.search_at Regex.contains_ci]. now rewrite matches_literal, IH.
Qed.

(** *** The filter of the list operation *)





Lemma eval_and (q1 q2 : Mongo.query) (d : dict) :
  Mongo.eval_query (Mongo.QAnd q1 q2) d
  = obind (Mongo.eval_query q1 d) (fun b1 =>
    obind (Mongo.eval_query q2 d) (fun b2 => Returned (b1 && b2))).
Proof. reflexivity. Qed.

Lemma eval_or_cons (q : Mongo.query) (qs : list Mongo.query) (d : dict) :
  Mongo.eval_query (Mongo.QOr (q :: qs)) d
  = obind (Mongo.eval_query q d) (fun b =>
    obind (Mongo.eval_query (Mongo.QOr qs) d) (fun b' => Returned (b || b'))).
Proof. reflexivity. Qed.

Lemma eval_or_nil (d : dict) : Mongo.eval_query (Mongo.QOr []) d = Returned false.
Proof. reflexivity. Qed.

Lemma eval_all (d : dict) : Mongo.eval_query Mongo.QAll d = Returned true.
Proof. reflexivity. Qed.








(* ===================================================================== *)
(** ** Further properties of the handlers *)
(* ===================================================================== *)

(** *** What the handlers raise *)

Lemma try_server_error {A} (c : M A) (db db' : db_state) (e : exn) :
  try_except c server_error db = (Raised e, db') ->
  exists detail, e = HTTPException 500 detail.
Proof.
  unfold try_except, server_error, raise.
  destruct (c db) as [[a|e0|] d]; intros H; inversion H; subst.
  eexists; reflexivity.
Qed.

(** X1. Whatever goes wrong inside them, product creation, the category
    listing and seeding raise nothing but an [HTTPException] of status
    500. *)
Theorem catalog_handlers_raise_500 :
  forall (p : Product) (db db' : db_state) (e : exn),
    create_product p db = (Raised e, db') \/
    list_categories db = (Raised e, db') \/
    seed_products db = (Raised e, db') ->
    exists detail, e = HTTPException 500 detail.
Proof.
  intros p db db' e [H|[H|H]]; exact (try_server_error _ _ _ _ H).
Qed.

Lemma catalog_handlers_raise_500_witness :
  exists detail,
    HTTPException 500 "Database not available" = HTTPException 500 detail.
Proof.
  exact (catalog_handlers_raise_500
           (mkProduct "Mug" None f64_one "Home" true) None None
           (HTTPException 500 "Database not available")
           (or_intror (or_intror eq_refl))).
Defined.

(** X2. A search term that is not a well-formed pattern makes the list
    operation raise the store's error as it is (the handler has no
    [except] clause), whatever the collection holds. *)
Theorem list_products_ill_formed_term :
  forall (D : Mongo.database) (category_ : option string) (q : string) (e : exn),
    hd None (Mongo.faults D) = None ->
    String.eqb q EmptyString = false ->
    Regex.compile q = Raised e ->
    list_products category_ (Some q) (Some D) = (Raised e, Some (Spec.advanced D)).
Proof.
  intros D category_ q e Hh Hq He.
  unfold list_products, bind, get_documents, on_db, Mongo.find.
  rewrite (store_call_ok _ _ Hh).
  unfold Mongo.parse_filter, list_products_filter, truthy_opt_str.
  rewrite Hq. cbn [negb].
  destruct category_ as [c|]; [destruct (String.eqb c EmptyString)|]; cbn [negb];
    cbn -[Regex.compile Mongo.filter_docs]; rewrite He; reflexivity.
Qed.

Lemma list_products_ill_formed_term_witness :
  list_products (Some "Food") (Some "(") (Some Samples.empty_store)
  = (Raised (Regex.invalid "missing closing parenthesis"),
     Some (Spec.advanced Samples.empty_store)).
Proof.
  exact (list_products_ill_formed_term Samples.empty_store (Some "Food") "("
           (Regex.invalid "missing closing parenthesis") eq_refl eq_refl eq_refl).
Defined.

(** *** What a listing returns *)

Lemma filter_docs_sound (q : Mongo.query) (docs : list dict) :
  forall r,
    Mongo.filter_docs q docs = Returned r ->
    forall d, In d r -> In d docs /\ Mongo.eval_query q d = Returned true.
Proof.
  induction docs as [|d0 docs IH]; intros r Hr d Hd.
  - cbn in Hr. inversion Hr; subst. contradiction.
  - cbn [Mongo.filter_docs] in Hr.
    destruct (Mongo.eval_query q d0) as [b|e|] eqn:Hb; try discriminate Hr.
    cbn [obind] in Hr.
    destruct (Mongo.filter_docs q docs) as [r'|e|]; try discriminate Hr.
    cbn [obind] in Hr. inversion Hr; subst.
    destruct b.
    + destruct Hd as [->|Hd].
      * split; [now left | exact Hb].
      * destruct (IH r' eq_refl d Hd). split; [now right | assumption].
    + destruct (IH r' eq_refl d Hd). split; [now right | assumption].
Qed.

Lemma products_out_spec (docs : list dict) :
  forall acc ps,
    products_out docs acc = Returned ps ->
    exists ps', ps = acc ++ ps' /\
                Forall2 (fun d p => product_out d = Returned p) docs ps'.
Proof.
  induction docs as [|d docs IH]; intros acc ps H.
  - cbn in H. inversion H; subst. exists []. rewrite app_nil_r. split; constructor.
  - cbn [products_out] in H.
    destruct (product_out d) as [p|e|] eqn:Hp; try discriminate H.
    cbn [obind] in H. destruct (IH _ _ H) as (ps' & -> & Hall).
    exists (p :: ps'). rewrite <- app_assoc. split; [reflexivity|].
    constructor; assumption.
Qed.

Lemma products_out_all (docs : list dict) :
  forall acc ps,
    Forall2 (fun d p => product_out d = Returned p) docs ps ->
    products_out docs acc = Returned (acc ++ ps).
Proof.
  induction docs as [|d docs IH]; intros acc ps H; inversion H; subst.
  - cbn. now rewrite app_nil_r.
  - cbn [products_out]. rewrite H2. cbn [obind].
    rewrite (IH _ _ H4), <- app_assoc. reflexivity.
Qed.

Lemma products_out_stops (good rest : list dict) (bad : dict) (e : exn) :
  forall acc ps,
    Forall2 (fun d p => product_out d = Returned p) good ps ->
    product_out bad = Raised e ->
    products_out (good ++ bad :: rest) acc = Raised e.
Proof.
  induction good as [|d good IH]; intros acc ps H Hbad; inversion H; subst.
  - cbn [app products_out]. now rewrite Hbad.
  - cbn [app products_out]. rewrite H2. cbn [obind]. now apply (IH _ l').
Qed.

(** Every record of a returned listing comes from a stored document that
    the filter matches. *)
Lemma list_products_returned (category_ q : option string) (db db' : db_state)
      (ps : list ProductOut) :
  list_products category_ q db = (Returned ps, db') ->
  exists r,
    Forall2 (fun d p => product_out d = Returned p) r ps /\
    forall d, In d r ->
              Mongo.doc_matches (list_products_filter category_ q) d = Returned true.
Proof.
  unfold list_products, bind, get_documents, lift.
  destruct db as [D|].
  - unfold on_db, Mongo.find, Mongo.store_call.
    destruct (Mongo.take_fault D) as [[msg|] D1]; [discriminate|].
    unfold Mongo.doc_matches.
    destruct (Mongo.parse_filter (list_products_filter category_ q)) as [query|e|];
      try discriminate.
    cbn [obind].
    destruct (Mongo.filter_docs query (Mongo.collection D1 "product")) as [r|e|] eqn:Hr;
      try discriminate.
    intros H. inversion H as [[Hps Hdb]].
    destruct (products_out_spec _ _ _ Hps) as (ps' & -> & Hall).
    exists r. split; [exact Hall|].
    intros d Hd. exact (proj2 (filter_docs_sound _ _ _ Hr d Hd)).
  - intros H. inversion H; subst. exists []. split; [constructor | contradiction].
Qed.

(** What a returned record says about the document it comes from. *)
Lemma product_out_inv (d : dict) (p : ProductOut) :
  product_out d = Returned p ->
  dict_lookup d "title" = Some (PStr (title p)) /\
  dict_lookup d "category" = Some (PStr (category p)) /\
  (description p = None /\
   (dict_lookup d "description" = None \/ dict_lookup d "description" = Some PNone) \/
   exists s, description p = Some s /\ dict_lookup d "description" = Some (PStr s)) /\
  py_str (dict_get d "_id" PNone) = Returned (id p) /\
  py_float (dict_get d "price" (PInt 0)) = Returned (price p) /\
  in_stock p = py_bool (dict_get d "in_stock" (PBool true)).
Proof.
  unfold product_out, ProductOut_init, dict_get.
  destruct (py_str match dict_lookup d "_id" with Some v => v | None => PNone end)
    as [i|e|]; try discriminate.
  destruct (py_float match dict_lookup d "price" with Some v => v | None => PInt 0 end)
    as [f|e|]; try discriminate.
  cbn [obind].
  destruct (dict_lookup d "title") as [[| | | | t | | |]|];
    destruct (dict_lookup d "category") as [[| | | | c | | |]|];
    destruct (dict_lookup d "description") as [[| | | | s | | |]|];
    cbn; try discriminate; intros H; inversion H; subst; cbn;
    repeat split; eauto.
Qed.

Lemma eval_eq_returned (k c : string) (d : dict) :
  exists b, Mongo.eval_query (Mongo.QEq k c) d = Returned b.
Proof.
  cbn [Mongo.eval_query].
  destruct (dict_lookup d k) as [[| | | | s | | |]|]; eexists; reflexivity.
Qed.

Lemma obind_and_true (a b : outcome bool) :
  obind a (fun b1 => obind b (fun b2 => Returned (b1 && b2))) = Returned true ->
  a = Returned true /\ b = Returned true.
Proof.
  destruct a as [[]|e|], b as [[]|e'|]; cbn; intros H; try discriminate H; auto.
Qed.

Lemma obind_or_true (a b : outcome bool) :
  obind a (fun b1 => obind b (fun b2 => Returned (b1 || b2))) = Returned true ->
  exists b1 b2, a = Returned b1 /\ b = Returned b2 /\ b1 || b2 = true.
Proof.
  destruct a as [b1|e|], b as [b2|e'|]; cbn; intros H; try discriminate H.
  inversion H. eauto.
Qed.

Lemma doc_matches_category (c : string) (q : option string) (d : dict) :
  String.eqb c EmptyString = false ->
  Mongo.doc_matches (list_products_filter (Some c) q) d = Returned true ->
  Mongo.eval_query (Mongo.QEq "category" c) d = Returned true.
Proof.
  intros Hc.
  unfold Mongo.doc_matches, Mongo.parse_filter, list_products_filter, truthy_opt_str.
  rewrite Hc. cbn [negb].
  destruct q as [p|]; [destruct (String.eqb p EmptyString)|]; cbn [negb];
    cbn -[Regex.compile Mongo.eval_query];
    try (destruct (Regex.compile p) as [r|e|]; cbn -[Mongo.eval_query];
         try discriminate);
    rewrite eval_and; intros H; exact (proj1 (obind_and_true _ _ H)).
Qed.

(** X3. Every product that the list operation returns for a given
    (non-empty) category carries exactly that category, on every store
    state and for every search term. *)
Theorem list_products_category_sound :
  forall (c : string) (q : option string) (db db' : db_state) (ps : list ProductOut),
    String.eqb c EmptyString = false ->
    list_products (Some c) q db = (Returned ps, db') ->
    Forall (fun p => category p = c) ps.
Proof.
  intros c q db db' ps Hc Hrun.
  destruct (list_products_returned _ _ _ _ _ Hrun) as (r & Hall & Hmatch).
  clear Hrun. induction Hall as [|d p r ps Hp Hall IH]; constructor.
  - assert (Hm := doc_matches_category c q d Hc (Hmatch d (or_introl eq_refl))).
    destruct (product_out_inv d p Hp) as (_ & Hcat & _).
    cbn [Mongo.eval_query] in Hm. rewrite Hcat in Hm.
    cbn in Hm. inversion Hm as [He]. now apply String.eqb_eq in He.
  - apply IH. intros d' Hd'. apply Hmatch. now right.
Qed.

Lemma list_products_category_sound_witness :
  Forall (fun p => category p = "Food")
    [ mkProductOut "000000000000000000000001" "Organic Granola"
        (Some "Crunchy, honey-sweetened breakfast granola.")
        (f64_of_decimal 749 2) "Food" true;
      mkProductOut "000000000000000000000004" "Gourmet Dark Chocolate"
        (Some "70% cacao premium chocolate bar.")
        (f64_of_decimal 399 2) "Food" true ].
Proof.
  exact (list_products_category_sound "Food" None
           (Some (Spec.inserted_all "product" samples Samples.empty_store))
           (Some (Spec.advanced (Spec.inserted_all "product" samples Samples.empty_store)))
           _ eq_refl eq_refl).
Defined.

Lemma obind_and_unit (a : outcome bool) (b : bool) :
  obind a (fun x => obind (Returned true) (fun y => Returned (x && y))) = Returned b ->
  a = Returned b.
Proof.
  destruct a as [x|e|]; cbn; intros H; try discriminate H.
  inversion H. now rewrite andb_true_r.
Qed.

Lemma obind_or_unit (a : outcome bool) (b : bool) :
  obind a (fun x => obind (Returned false) (fun y => Returned (x || y))) = Returned b ->
  a = Returned b.
Proof.
  destruct a as [x|e|]; cbn; intros H; try discriminate H.
  inversion H. now rewrite orb_false_r.
Qed.

Lemma doc_matches_term (category_ : option string) (q : string) (r : Regex.regex)
      (d : dict) :
  String.eqb q EmptyString = false ->
  Regex.compile q = Returned r ->
  Mongo.doc_matches (list_products_filter category_ (Some q)) d = Returned true ->
  exists b1 b2,
    Mongo.eval_query (Mongo.QRegex "title" true r) d = Returned b1 /\
    Mongo.eval_query (Mongo.QRegex "description" true r) d = Returned b2 /\
    b1 || b2 = true.
Proof.
  intros Hq Hr.
  assert (Hor : Mongo.eval_query
                  (Mongo.QAnd
                     (Mongo.QOr
                        [Mongo.QAnd (Mongo.QRegex "title" true r) Mongo.QAll;
                         Mongo.QAnd (Mongo.QRegex "description" true r) Mongo.QAll])
                     Mongo.QAll) d = Returned true ->
                exists b1 b2,
                  Mongo.eval_query (Mongo.QRegex "title" true r) d = Returned b1 /\
                  Mongo.eval_query (Mongo.QRegex "description" true r) d = Returned b2 /\
                  b1 || b2 = true).
  { rewrite eval_and. intros H. apply obind_and_true in H. destruct H as [H _].
    rewrite eval_or_cons in H. apply obind_or_true in H.
    destruct H as (b1 & b2 & H1 & H2 & Hb).
    rewrite eval_and, eval_all in H1. apply obind_and_unit in H1.
    rewrite eval_or_cons, eval_or_nil, eval_and, eval_all in H2.
    apply obind_or_unit, obind_and_unit in H2.
    exists b1, b2. auto. }
  unfold Mongo.doc_matches, Mongo.parse_filter, list_products_filter, truthy_opt_str.
  rewrite Hq. cbn [negb].
  destruct category_ as [c|]; [destruct (String.eqb c EmptyString)|]; cbn [negb];
    cbn -[Regex.compile Mongo.eval_query]; rewrite Hr;
    cbn -[Regex.compile Mongo.eval_query]; try exact Hor.
  rewrite eval_and. intros H. apply obind_and_true in H. destruct H as [_ H].
  exact (Hor H).
Qed.

Lemma search_returned (r : Regex.regex) (x : string) (b : bool) :
  Regex.search true r x = Returned b -> b = Regex.search_at true r true x.
Proof.
  unfold Regex.search. destruct (Regex.all_chars Regex.is_ascii7 x); intros H;
    [now inversion H | discriminate H].
Qed.

(** X4. When the search term holds no pattern metacharacter, every product
    that the list operation returns holds the term as a substring of its
    title or of its description, whatever the case of the letters; this
    on every store state and for every category parameter. *)
Theorem list_products_term_sound :
  forall (category_ : option string) (q : string) (db db' : db_state)
         (ps : list ProductOut),
    Regex.is_literal q = true ->
    String.eqb q EmptyString = false ->
    list_products category_ (Some q) db = (Returned ps, db') ->
    Forall (fun p => Spec.record_contains_ci q p = true) ps.
Proof.
  intros category_ q db db' ps Hlit Hq Hrun.
  destruct (list_products_returned _ _ _ _ _ Hrun) as (r & Hall & Hmatch).
  clear Hrun. induction Hall as [|d p r ps Hp Hall IH]; constructor.
  - destruct (doc_matches_term category_ q (Regex.literal q) d Hq
                (compile_literal q Hlit) (Hmatch d (or_introl eq_refl)))
      as (b1 & b2 & H1 & H2 & Hb).
    destruct (product_out_inv d p Hp) as (Ht & _ & Hde & _).
    cbn [Mongo.eval_query] in H1, H2. rewrite Ht in H1.
    apply search_returned in H1. rewrite search_literal in H1.
    unfold Spec.record_contains_ci. rewrite <- H1.
    destruct Hde as [[Hnone [Hd|Hd]]|(s & Hsome & Hd)]; rewrite Hd in H2.
    + inversion H2; subst. rewrite Hnone. exact Hb.
    + inversion H2; subst. rewrite Hnone. exact Hb.
    + apply search_returned in H2. rewrite search_literal in H2.
      rewrite Hsome, <- H2. exact Hb.
  - apply IH. intros d' Hd'. apply Hmatch. now right.
Qed.

Lemma list_products_term_sound_witness :
  Forall (fun p => Spec.record_contains_ci "GRANOLA" p = true)
    [ mkProductOut "000000000000000000000001" "Organic Granola"
        (Some "Crunchy, honey-sweetened breakfast granola.")
        (f64_of_decimal 749 2) "Food" true ].
Proof.
  exact (list_products_term_sound None "GRANOLA"
           (Some (Spec.inserted_all "product" samples Samples.empty_store))
           (Some (Spec.advanced (Spec.inserted_all "product" samples Samples.empty_store)))
           _ eq_refl eq_refl eq_refl).
Defined.

Lemma list_products_unfiltered (D : Mongo.database) :
  hd None (Mongo.faults D) = None ->
  list_products None None (Some D)
  = (products_out (Mongo.collection D "product") [], Some (Spec.advanced D)).
Proof.
  intros Hh.
  unfold list_products, bind, get_documents, on_db, Mongo.find, lift.
  rewrite (store_call_ok _ _ Hh).
  change (Mongo.collection (Spec.advanced D) "product")
    with (Mongo.collection D "product").
  cbn [list_products_filter Mongo.parse_filter Mongo.parse_filter_val obind].
  unfold Mongo.parse_filter. cbn [Mongo.parse_filter_val obind].
  rewrite filter_docs_all.
  destruct (products_out (Mongo.collection D "product") []) as [ps|e|]; reflexivity.
Qed.

(** X5. Without parameters the list operation returns the records of the
    stored documents in the order of the store when every document has
    one; and the first stored document that has none makes the whole
    listing raise that document's error, whatever precedes or follows
    it. *)
Theorem list_products_all_or_nothing :
  forall (D : Mongo.database),
    hd None (Mongo.faults D) = None ->
    (forall ps,
        Forall2 (fun d p => product_out d = Returned p) (Mongo.collection D "product") ps ->
        list_products None None (Some D) = (Returned ps, Some (Spec.advanced D))) /\
    (forall good bad rest ps e,
        Mongo.collection D "product" = good ++ bad :: rest ->
        Forall2 (fun d p => product_out d = Returned p) good ps ->
        product_out bad = Raised e ->
        list_products None None (Some D) = (Raised e, Some (Spec.advanced D))).
Proof.
  intros D Hh.
  assert (Hrun := list_products_unfiltered D Hh).
  split.
  - intros ps Hall. rewrite Hrun, (products_out_all _ [] ps Hall). reflexivity.
  - intros good bad rest ps e Hdocs Hall Hbad.
    rewrite Hrun, Hdocs, (products_out_stops good rest bad e [] ps Hall Hbad).
    reflexivity.
Qed.

Lemma list_products_all_or_nothing_witness :
  exists msg,
    list_products None None (Some Samples.untitled_store)
    = (Raised (Exc ValidationError msg), Some (Spec.advanced Samples.untitled_store)).
Proof.
  eexists.
  apply (proj2 (list_products_all_or_nothing Samples.untitled_store eq_refl)
           [Samples.plain_tee] Samples.untitled []
           [mkProductOut "000000000000000000000007" "Plain Tee" (Some "Soft cotton tee")
              (f64_of_decimal 1499 2) "Clothes" true]).
  - reflexivity.
  - constructor; [reflexivity | constructor].
  - reflexivity.
Defined.

(** *** Creating a product *)

Lemma create_product_ok (p : Product) (D : Mongo.database) :
  hd None (Mongo.faults D) = None ->
  create_product p (Some D)
  = (Returned [("id", PStr (hex_fixed 24 (Mongo.next_oid D)))],
     Some (Spec.inserted "product" (Product_dump p) D)).
Proof.
  intros Hh.
  unfold create_product, try_except, bind, create_document, on_db, Mongo.insert_one.
  rewrite (store_call_ok _ _ Hh). reflexivity.
Qed.

Lemma product_out_created (oid : ObjectId) (p : Product) :
  product_out (("_id", PObjectId oid) :: Product_dump p)
  = Returned (Spec.created_record (hex_fixed 24 oid) p).
Proof.
  destruct p as [t [de|] pr c st]; reflexivity.
Qed.

Lemma products_out_app (l1 l2 : list dict) :
  forall acc,
    products_out (l1 ++ l2) acc
    = obind (products_out l1 acc) (fun acc' => products_out l2 acc').
Proof.
  induction l1 as [|d l1 IH]; intros acc; [reflexivity|].
  cbn [app products_out]. destruct (product_out d) as [p|e|]; cbn [obind]; auto.
Qed.

(** X6. A product that has been created shows up in the next unfiltered
    listing: the listing is the previous one followed by one record that
    carries the identifier returned by the creation and the title,
    description, price, category and stock flag that were submitted. *)
Theorem create_product_then_list :
  forall (D : Mongo.database) (p : Product) (ps : list ProductOut),
    Spec.no_fault_within 2 (Mongo.faults D) = true ->
    products_out (Mongo.collection D "product") [] = Returned ps ->
    exists (i : string) (D1 : Mongo.database),
      create_product p (Some D) = (Returned [("id", PStr i)], Some D1) /\
      list_products None None (Some D1)
      = (Returned (ps ++ [Spec.created_record i p]), Some (Spec.advanced D1)).
Proof.
  intros D p ps Hf Hps.
  destruct (no_fault_head _ _ Hf) as [Hh Ht].
  destruct (no_fault_head _ _ Ht) as [Hh2 _].
  exists (hex_fixed 24 (Mongo.next_oid D)), (Spec.inserted "product" (Product_dump p) D).
  split; [now apply create_product_ok|].
  rewrite list_products_unfiltered by exact Hh2.
  rewrite collection_inserted, products_out_app, Hps. cbn [obind products_out].
  rewrite product_out_created. reflexivity.
Qed.

Lemma create_product_then_list_witness :
  exists (i : string) (D1 : Mongo.database),
    create_product (mkProduct "Mug" None f64_one "Home" true) (Some Samples.empty_store)
    = (Returned [("id", PStr i)], Some D1) /\
    list_products None None (Some D1)
    = (Returned [Spec.created_record i (mkProduct "Mug" None f64_one "Home" true)],
       Some (Spec.advanced D1)).
Proof.
  exact (create_product_then_list Samples.empty_store
           (mkProduct "Mug" None f64_one "Home" true) [] eq_refl eq_refl).
Defined.

(** X7. Once a product has been created, seeding is a no-op: it reports
    [seeded=false] with the number of stored products, which is one more
    than before the creation, and inserts nothing. *)
Theorem create_product_then_seed :
  forall (D : Mongo.database) (p : Product),
    Spec.no_fault_within 2 (Mongo.faults D) = true ->
    exists D1 : Mongo.database,
      snd (create_product p (Some D)) = Some D1 /\
      seed_products (Some D1)
      = (Returned [("status", PStr "ok"); ("seeded", PBool false);
                   ("existing",
                    PInt (Z.of_nat (S (length (Mongo.collection D "product")))))],
         Some (Spec.advanced D1)) /\
      Mongo.collections (Spec.advanced D1) = Mongo.collections D1.
Proof.
  intros D p Hf.
  destruct (no_fault_head _ _ Hf) as [Hh Ht].
  destruct (no_fault_head _ _ Ht) as [Hh2 _].
  exists (Spec.inserted "product" (Product_dump p) D).
  split; [now rewrite create_product_ok|].
  split; [|reflexivity].
  rewrite seed_products_run by exact Hh2.
  rewrite collection_inserted, length_app. cbn [length].
  rewrite Nat.add_1_r. reflexivity.
Qed.

Lemma create_product_then_seed_witness :
  exists D1 : Mongo.database,
    snd (create_product (mkProduct "Mug" None f64_one "Home" true)
           (Some Samples.empty_store)) = Some D1 /\
    fst (seed_products (Some D1))
    = Returned [("status", PStr "ok"); ("seeded", PBool false); ("existing", PInt 1)].
Proof.
  destruct (create_product_then_seed Samples.empty_store
              (mkProduct "Mug" None f64_one "Home" true) eq_refl) as (D1 & H1 & H2 & _).
  exists D1. split; [exact H1 | now rewrite H2].
Defined.

(** *** More on category facets *)

Lemma list_categories_depends_on_collection (D D2 : Mongo.database) :
  hd None (Mongo.faults D) = None ->
  hd None (Mongo.faults D2) = None ->
  Mongo.collection D "product" = Mongo.collection D2 "product" ->
  fst (list_categories (Some D)) = fst (list_categories (Some D2)).
Proof.
  intros Hh Hh2 Hc.
  unfold list_categories, try_except, bind, distinct_categories, on_db, Mongo.distinct.
  rewrite (store_call_ok _ _ Hh), (store_call_ok _ _ Hh2).
  change (Mongo.collection (Spec.advanced D) "product")
    with (Mongo.collection D "product").
  change (Mongo.collection (Spec.advanced D2) "product")
    with (Mongo.collection D2 "product").
  rewrite Hc.
  destruct (forallb Mongo.is_plain_scalar
              (flat_map (Mongo.field_values "category") (Mongo.collection D2 "product")));
    [|reflexivity].
  cbn [lift]. destruct (py_sort _) as [l|e|]; reflexivity.
Qed.

(** X8. The category listing is idempotent: it leaves the collections as
    they are, and a second call that meets no failure gives the outcome
    of the first, be it a list or an error. *)
Theorem list_categories_idempotent :
  forall D : Mongo.database,
    Spec.no_fault_within 2 (Mongo.faults D) = true ->
    snd (list_categories (Some D)) = Some (Spec.advanced D) /\
    Mongo.collections (Spec.advanced D) = Mongo.collections D /\
    fst (list_categories (snd (list_categories (Some D))))
    = fst (list_categories (Some D)).
Proof.
  intros D Hf.
  destruct (no_fault_head _ _ Hf) as [Hh Ht].
  destruct (no_fault_head _ _ Ht) as [Hh2 _].
  assert (Hs : snd (list_categories (Some D)) = Some (Spec.advanced D)).
  { unfold list_categories, try_except, bind, distinct_categories, on_db, Mongo.distinct.
    rewrite (store_call_ok _ _ Hh).
    destruct (forallb Mongo.is_plain_scalar _); [|reflexivity].
    cbn [lift]. destruct (py_sort _) as [l|e|]; reflexivity. }
  split; [exact Hs|]. split; [reflexivity|].
  rewrite Hs. symmetry.
  apply list_categories_depends_on_collection; [exact Hh | exact Hh2 | reflexivity].
Qed.

Lemma list_categories_idempotent_witness :
  fst (list_categories
         (snd (list_categories
                 (Some (Spec.inserted_all "product" samples Samples.empty_store)))))
  = fst (list_categories (Some (Spec.inserted_all "product" samples Samples.empty_store))).
Proof.
  exact (proj2 (proj2 (list_categories_idempotent
                         (Spec.inserted_all "product" samples Samples.empty_store)
                         eq_refl))).
Defined.

Lemma scalar_eqb_eq (a b : pyval) :
  Mongo.is_plain_scalar a = true -> Mongo.scalar_eqb a b = true -> a = b.
Proof.
  destruct a, b; cbn; intros Hp H; try discriminate; try reflexivity.
  - apply Bool.eqb_prop in H. now subst.
  - apply Z.eqb_eq in H. now subst.
  - apply String.eqb_eq in H. now subst.
  - apply N.eqb_eq in H. now subst.
Qed.

Lemma dedup_In (l : list pyval) (x : pyval) :
  forallb Mongo.is_plain_scalar l = true -> In x l -> In x (Mongo.dedup l).
Proof.
  induction l as [|a l IH]; intros Hp Hin; [contradiction|].
  cbn [forallb] in Hp. apply andb_true_iff in Hp. destruct Hp as [Ha Hp].
  cbn [Mongo.dedup]. destruct Hin as [->|Hin]; [now left|].
  destruct (Mongo.scalar_eqb a x) eqn:E.
  - left. now apply scalar_eqb_eq.
  - right. apply filter_In. split; [now apply IH | now rewrite E].
Qed.

Lemma all_strs_only (l : list pyval) (r : list string) :
  all_strs l = Some r -> forall v, In v l -> exists s, v = PStr s.
Proof.
  revert r. induction l as [|a l IH]; intros r H v Hin; [contradiction|].
  destruct a; try discriminate H. cbn [all_strs] in H.
  destruct (all_strs l) as [r'|] eqn:E; [|discriminate H].
  destruct Hin as [<-|Hin]; [eexists; reflexivity | exact (IH r' eq_refl v Hin)].
Qed.

Lemma py_sort_none_and_str (l : list pyval) (s : string) :
  In PNone l -> In (PStr s) l ->
  py_sort l = Raised (Exc TypeError "'<' not supported between instances").
Proof.
  intros Hn Hs. unfold py_sort.
  destruct (all_strs l) as [r|] eqn:E.
  - destruct (all_strs_only l r E PNone Hn) as (s' & H). discriminate H.
  - destruct l as [|a [|b l]].
    + contradiction.
    + destruct Hn as [Ha|[]]. destruct Hs as [Hb|[]]. congruence.
    + assert (Hex : existsb (fun v => match v with
                                      | PStr _ | PNone | PDict _ => true
                                      | _ => false
                                      end) (a :: b :: l) = true).
      { apply existsb_exists. exists PNone. split; [exact Hn | reflexivity]. }
      now rewrite Hex.
Qed.

(** X9. A collection in which one document holds a null category and
    another a string category makes the category listing fail with a
    server error of status 500 (the values being otherwise null,
    booleans, integers, strings or identifiers): sorting cannot compare
    null with a string. *)
Theorem list_categories_null_category :
  forall (D : Mongo.database) (d1 d2 : dict) (s : string),
    hd None (Mongo.faults D) = None ->
    forallb Mongo.is_plain_scalar
      (flat_map (Mongo.field_values "category") (Mongo.collection D "product")) = true ->
    In d1 (Mongo.collection D "product") ->
    dict_lookup d1 "category" = Some PNone ->
    In d2 (Mongo.collection D "product") ->
    dict_lookup d2 "category" = Some (PStr s) ->
    exists detail,
      list_categories (Some D) = (Raised (HTTPException 500 detail), Some (Spec.advanced D)).
Proof.
  intros D d1 d2 s Hh Hplain H1 Hn H2 Hs.
  unfold list_categories, try_except, bind, distinct_categories, on_db, Mongo.distinct.
  rewrite (store_call_ok _ _ Hh).
  change (Mongo.collection (Spec.advanced D) "product")
    with (Mongo.collection D "product").
  rewrite Hplain. cbn [lift].
  rewrite (py_sort_none_and_str _ s).
  - eexists. reflexivity.
  - apply dedup_In; [exact Hplain|]. apply in_flat_map. exists d1.
    split; [exact H1|]. unfold Mongo.field_values. rewrite Hn. now left.
  - apply dedup_In; [exact Hplain|]. apply in_flat_map. exists d2.
    split; [exact H2|]. unfold Mongo.field_values. rewrite Hs. now left.
Qed.

Lemma list_categories_null_category_witness :
  exists detail,
    list_categories
      (Some (Mongo.mkDatabase
               [("product", [ [("title", PStr "Mug"); ("category", PNone)];
                              Samples.plain_tee ])] 0%N []))
    = (Raised (HTTPException 500 detail),
       Some (Spec.advanced
               (Mongo.mkDatabase
                  [("product", [ [("title", PStr "Mug"); ("category", PNone)];
                                 Samples.plain_tee ])] 0%N []))).
Proof.
  apply (list_categories_null_category
           (Mongo.mkDatabase
              [("product", [ [("title", PStr "Mug"); ("category", PNone)];
                             Samples.plain_tee ])] 0%N [])
           [("title", PStr "Mug"); ("category", PNone)] Samples.plain_tee "Clothes").
  - reflexivity.
  - reflexivity.
  - left. reflexivity.
  - reflexivity.
  - right. left. reflexivity.
  - reflexivity.
Defined.

(** *** What the handlers do to the store *)

Lemma coll_lookup_set_other (cs : list (string * list dict)) (n name : string)
      (docs : list dict) :
  String.eqb n name = false ->
  Mongo.coll_lookup (Mongo.coll_set cs n docs) name = Mongo.coll_lookup cs name.
Proof.
  intros Hne. induction cs as [|[n' old] cs IH]; simpl.
  - now rewrite Hne.
  - destruct (String.eqb n' n) eqn:E; simpl.
    + apply String.eqb_eq in E. subst n'. now rewrite Hne.
    + destruct (String.eqb n' name); auto.
Qed.

Lemma collection_inserted_other (name : string) (d : dict) (D : Mongo.database) :
  String.eqb "product" name = false ->
  Mongo.collection (Spec.inserted "product" d D) name = Mongo.collection D name.
Proof.
  intros H. unfold Mongo.collection at 1. simpl. now apply coll_lookup_set_other.
Qed.

(** X10. The reading handlers never write: whatever their outcome, the
    list operation, the category listing and the diagnostics leave the
    collections and the identifier counter as they were (only the call to
    the store is consumed), and an unavailable handle stays unavailable. *)
Theorem reading_handlers_leave_store :
  forall (category_ q database_url name : option string),
    (forall D : Mongo.database,
        snd (list_products category_ q (Some D)) = Some (Spec.advanced D) /\
        snd (list_categories (Some D)) = Some (Spec.advanced D) /\
        snd (test_database database_url name (Some D)) = Some (Spec.advanced D) /\
        Mongo.collections (Spec.advanced D) = Mongo.collections D /\
        Mongo.next_oid (Spec.advanced D) = Mongo.next_oid D) /\
    snd (list_products category_ q None) = None /\
    snd (list_categories None) = None /\
    snd (test_database database_url name None) = None.
Proof.
  intros category_ q database_url name. split; [|repeat split].
  intros D. split; [|split; [|split; [|split; reflexivity]]].
  - unfold list_products, bind, get_documents, on_db, Mongo.find, Mongo.store_call, lift.
    rewrite take_fault_eq. destruct (hd None (Mongo.faults D)); [reflexivity|].
    destruct (obind _ _) as [docs|e|]; reflexivity.
  - unfold list_categories, try_except, bind, distinct_categories, on_db, Mongo.distinct,
      Mongo.store_call, lift.
    rewrite take_fault_eq. destruct (hd None (Mongo.faults D)); [reflexivity|].
    destruct (forallb Mongo.is_plain_scalar _); [|reflexivity].
    destruct (py_sort _) as [l|e|]; reflexivity.
  - unfold test_database, test_database_body, on_db, Mongo.list_collection_names,
      Mongo.store_call.
    rewrite take_fault_eq. destruct (hd None (Mongo.faults D)) as [msg|]; [|reflexivity].
    cbn [str_exn]. unfold py_slice_to. destruct (is_ascii_text msg); reflexivity.
Qed.

(** Whatever the failures it meets, a loop of inserts only appends, and
    only to the collection of products. *)
Lemma seed_loop_extends (l : list dict) :
  forall D,
    Forall (fun d => dict_lookup d "_id" = None) l ->
    exists D' k,
      snd (for_each l insert_sample (Some D)) = Some D' /\
      k <= length l /\
      Mongo.collection D' "product"
      = Mongo.collection D "product" ++ Spec.with_ids (Mongo.next_oid D) (firstn k l) /\
      (forall name, String.eqb "product" name = false ->
                    Mongo.collection D' name = Mongo.collection D name).
Proof.
  induction l as [|d l IH]; intros D Hids.
  - exists D, 0. cbn. rewrite app_nil_r. auto.
  - inversion Hids as [|? ? Hd Hl]; subst.
    cbn [for_each]. unfold bind at 1.
    destruct (hd None (Mongo.faults D)) as [msg|] eqn:Hh.
    + rewrite (insert_sample_fault d D msg Hh).
      exists (Spec.advanced D), 0. cbn. rewrite app_nil_r.
      repeat split; auto. lia.
    + rewrite (insert_sample_ok d D Hd Hh).
      destruct (IH (Spec.inserted "product" d D) Hl) as (D' & k & Hs & Hk & Hc & Ho).
      exists D', (S k). split; [exact Hs|]. split; [cbn; lia|]. split.
      * rewrite Hc, collection_inserted, <- app_assoc. reflexivity.
      * intros name Hn. rewrite (Ho name Hn). now apply collection_inserted_other.
Qed.

(** X11. The writing handlers only append: whatever their outcome and
    whatever failures they meet, product creation leaves the stored
    products in place and adds at most one, seeding leaves them in place
    and adds some first samples in order, and neither touches another
    collection. *)
Theorem writing_handlers_only_append :
  forall (D : Mongo.database) (p : Product),
    (exists D' more,
        snd (create_product p (Some D)) = Some D' /\
        Mongo.collection D' "product" = Mongo.collection D "product" ++ more /\
        length more <= 1 /\
        (forall name, String.eqb "product" name = false ->
                      Mongo.collection D' name = Mongo.collection D name)) /\
    (exists D' k,
        snd (seed_products (Some D)) = Some D' /\
        k <= length samples /\
        Mongo.collection D' "product"
        = Mongo.collection D "product"
          ++ Spec.with_ids (Mongo.next_oid D) (firstn k samples) /\
        (forall name, String.eqb "product" name = false ->
                      Mongo.collection D' name = Mongo.collection D name)).
Proof.
  intros D p. split.
  - destruct (hd None (Mongo.faults D)) as [msg|] eqn:Hh.
    + exists (Spec.advanced D), []. rewrite app_nil_r.
      unfold create_product, try_except, bind, create_document, on_db, Mongo.insert_one.
      rewrite (store_call_fault _ _ _ Hh). cbn. auto.
    + exists (Spec.inserted "product" (Product_dump p) D),
        [("_id", PObjectId (Mongo.next_oid D)) :: Product_dump p].
      rewrite (create_product_ok p D Hh). cbn [snd length].
      split; [reflexivity|]. split; [apply collection_inserted|].
      split; [lia|]. intros name Hn. now apply collection_inserted_other.
  - destruct (hd None (Mongo.faults D)) as [msg|] eqn:Hh.
    + exists (Spec.advanced D), 0. cbn [firstn Spec.with_ids]. rewrite app_nil_r.
      unfold seed_products, try_except, bind, count_products, on_db, Mongo.count_documents.
      rewrite (store_call_fault _ _ _ Hh). cbn. repeat split; auto. lia.
    + rewrite (seed_products_run D Hh).
      destruct (Nat.ltb 0 (length (Mongo.collection D "product"))).
      * exists (Spec.advanced D), 0. cbn [firstn Spec.with_ids]. rewrite app_nil_r.
        cbn. repeat split; auto. lia.
      * destruct (seed_loop_extends samples (Spec.advanced D) samples_fresh)
          as (D' & k & Hs & Hk & Hc & Ho).
        exists D', k.
        destruct (for_each samples insert_sample (Some (Spec.advanced D)))
          as [[u|e|] db1]; cbn [snd] in *; auto.
Qed.

(** *** Identifiers of public records *)

Lemma string_length_append (a b : string) :
  String.length (String.append a b) = String.length a + String.length b.
Proof. induction a as [|c a IH]; simpl; [reflexivity | now rewrite IH]. Qed.

Lemma hex_fixed_length (w : nat) : forall n, String.length (hex_fixed w n) = w.
Proof.
  induction w as [|w IH]; intros n; [reflexivity|].
  cbn [hex_fixed]. rewrite string_length_append, IH. cbn. lia.
Qed.

Lemma append_last_inj (a : string) :
  forall (b : string) (x y : ascii),
    String.length a = String.length b ->
    String.append a (String x EmptyString) = String.append b (String y EmptyString) ->
    a = b /\ x = y.
Proof.
  induction a as [|c a IH]; intros b x y Hlen H; destruct b as [|c' b];
    try discriminate Hlen.
  - cbn in H. inversion H. auto.
  - cbn in H, Hlen. inversion H as [[Hc Ht]]. inversion Hlen as [Hl].
    destruct (IH b x y Hl Ht). subst. auto.
Qed.

Lemma hex_digit_inj_nat (i j : nat) :
  i < 16 -> j < 16 ->
  hex_digit (N.of_nat i) = hex_digit (N.of_nat j) -> i = j.
Proof.
  intros Hi Hj.
  do 16 (destruct i as [|i];
         [ do 16 (destruct j as [|j];
                  [ first [ reflexivity
                          | intros H; vm_compute in H; discriminate H ] |]); lia |]).
  lia.
Qed.

Lemma hex_digit_inj (n m : N) :
  (n < 16)%N -> (m < 16)%N -> hex_digit n = hex_digit m -> n = m.
Proof.
  intros Hn Hm H.
  rewrite <- (N2Nat.id n), <- (N2Nat.id m) in H.
  apply hex_digit_inj_nat in H; [| lia | lia].
  now apply N2Nat.inj.
Qed.

Lemma hex_fixed_inj (w : nat) :
  forall n m,
    hex_fixed w n = hex_fixed w m ->
    (n mod 16 ^ N.of_nat w = m mod 16 ^ N.of_nat w)%N.
Proof.
  induction w as [|w IH]; intros n m H.
  - cbn. now rewrite !N.mod_1_r.
  - cbn [hex_fixed] in H.
    apply append_last_inj in H; [|now rewrite !hex_fixed_length].
    destruct H as [Hhi Hlo].
    apply hex_digit_inj in Hlo; [| now apply N.mod_lt | now apply N.mod_lt].
    apply IH in Hhi.
    rewrite Nat2N.inj_succ, N.pow_succ_r'.
    rewrite !N.Div0.mod_mul_r. now rewrite Hlo, Hhi.
Qed.

(** X12. The [id] of a public record is the 24-character rendering of the
    identifier of the stored document, and records of documents with
    different identifiers (below 2^96, the range of an identifier) get
    different [id]s. *)
Theorem product_ids_distinct :
  forall (d1 d2 : dict) (o1 o2 : ObjectId) (p1 p2 : ProductOut),
    dict_lookup d1 "_id" = Some (PObjectId o1) ->
    dict_lookup d2 "_id" = Some (PObjectId o2) ->
    (o1 < 2 ^ 96)%N -> (o2 < 2 ^ 96)%N ->
    product_out d1 = Returned p1 ->
    product_out d2 = Returned p2 ->
    String.length (id p1) = 24 /\
    (id p1 = id p2 -> o1 = o2).
Proof.
  intros d1 d2 o1 o2 p1 p2 H1 H2 Hb1 Hb2 Hp1 Hp2.
  destruct (product_out_inv d1 p1 Hp1) as (_ & _ & _ & Hi1 & _).
  destruct (product_out_inv d2 p2 Hp2) as (_ & _ & _ & Hi2 & _).
  unfold dict_get in Hi1, Hi2. rewrite H1 in Hi1. rewrite H2 in Hi2.
  cbn [py_str] in Hi1, Hi2.
  assert (E1 : hex_fixed 24 o1 = id p1) by congruence.
  assert (E2 : hex_fixed 24 o2 = id p2) by congruence.
  rewrite <- E1, <- E2.
  split; [apply hex_fixed_length|].
  intros Heq. apply hex_fixed_inj in Heq.
  change (16 ^ N.of_nat 24)%N with (2 ^ 96)%N in Heq.
  now rewrite !N.mod_small in Heq.
Qed.

Lemma product_ids_distinct_witness :
  String.length "000000000000000000000007" = 24 /\
  ("000000000000000000000007" = "000000000000000000000009" -> 7%N = 9%N).
Proof.
  exact (product_ids_distinct Samples.plain_tee Samples.bare 7%N 9%N
           (mkProductOut "000000000000000000000007" "Plain Tee" (Some "Soft cotton tee")
              (f64_of_decimal 1499 2) "Clothes" true)
           (mkProductOut "000000000000000000000009" "Mug" None f64_zero "Home" true)
           eq_refl eq_refl eq_refl eq_refl eq_refl eq_refl).
Defined.

(** *** Stored values that are not of the declared kind *)

(** X13. The default price applies to a missing key only: a document
    whose price is stored as null has no public record, and as soon as
    its identifier renders, normalization raises [TypeError]. *)
Theorem product_out_null_price :
  forall d : dict,
    dict_lookup d "price" = Some PNone ->
    (forall p, product_out d <> Returned p) /\
    (forall i, py_str (dict_get d "_id" PNone) = Returned i ->
               exists msg, product_out d = Raised (Exc TypeError msg)).
Proof.
  intros d Hnull.
  assert (Hf : py_float (dict_get d "price" (PInt 0))
               = Raised (Exc TypeError "float() argument must be a string or a real number")).
  { unfold dict_get. now rewrite Hnull. }
  split.
  - intros p Hp. destruct (product_out_inv d p Hp) as (_ & _ & _ & _ & Hpr & _).
    rewrite Hf in Hpr. discriminate Hpr.
  - intros i Hi. unfold product_out. rewrite Hi, Hf. eexists. reflexivity.
Qed.

Lemma product_out_null_price_witness :
  exists msg,
    product_out [("_id", PObjectId 3%N); ("title", PStr "Mug"); ("price", PNone);
                 ("category", PStr "Home")]
    = Raised (Exc TypeError msg).
Proof.
  exact (proj2 (product_out_null_price
                  [("_id", PObjectId 3%N); ("title", PStr "Mug"); ("price", PNone);
                   ("category", PStr "Home")] eq_refl)
           "000000000000000000000003" eq_refl).
Defined.

(** X14. The stock flag is the truthiness of the stored value: for every
    document that has a public record, a stored null, 0 or empty string
    gives [in_stock = false], and any non-empty string, the text "false"
    included, gives [in_stock = true]; such a record exists as soon as the
    other fields are of their declared kinds. *)
Theorem product_out_in_stock_truthiness :
  forall (d : dict) (i t c : string),
    py_str (dict_get d "_id" PNone) = Returned i ->
    dict_lookup d "title" = Some (PStr t) ->
    dict_lookup d "category" = Some (PStr c) ->
    Spec.description_typed d = true ->
    Spec.price_coercible d = true ->
    exists p,
      product_out d = Returned p /\
      (dict_lookup d "in_stock" = Some PNone -> in_stock p = false) /\
      (dict_lookup d "in_stock" = Some (PInt 0) -> in_stock p = false) /\
      (dict_lookup d "in_stock" = Some (PStr EmptyString) -> in_stock p = false) /\
      (forall s, dict_lookup d "in_stock" = Some (PStr s) ->
                 String.eqb s EmptyString = false -> in_stock p = true).
Proof.
  intros d i t c Hi Ht Hc Hd Hp.
  unfold Spec.price_coercible in Hp.
  destruct (py_float (dict_get d "price" (PInt 0))) as [f|e|] eqn:Hf;
    try discriminate Hp.
  eexists. split; [apply (product_out_returns d i t c f); assumption|].
  cbn [in_stock]. unfold dict_get.
  repeat split.
  - intros H. now rewrite H.
  - intros H. now rewrite H.
  - intros H. now rewrite H.
  - intros s H Hs. rewrite H. cbn. now rewrite Hs.
Qed.

Lemma product_out_in_stock_truthiness_witness :
  exists p,
    product_out [("_id", PObjectId 3%N); ("title", PStr "Mug");
                 ("category", PStr "Home"); ("in_stock", PStr "false")]
    = Returned p /\
    in_stock p = true.
Proof.
  destruct (product_out_in_stock_truthiness
              [("_id", PObjectId 3%N); ("title", PStr "Mug");
               ("category", PStr "Home"); ("in_stock", PStr "false")]
              "000000000000000000000003" "Mug" "Home"
              eq_refl eq_refl eq_refl eq_refl eq_refl) as (p & Hp & _ & _ & _ & H).
  exists p. split; [exact Hp | exact (H "false" eq_refl eq_refl)].
Defined.

(** *** The case of the search term *)

Lemma prefix_ci_lower (p : string) :
  forall p' s,
    Spec.str_lower p = Spec.str_lower p' ->
    Regex.prefix_ci p s = Regex.prefix_ci p' s.
Proof.
  induction p as [|a p IH]; intros p' s H; destruct p' as [|a' p'];
    try discriminate H; [reflexivity|].
  cbn [Spec.str_lower] in H. inversion H as [[Ha Hp]].
  destruct s as [|x s]; [reflexivity|].
  cbn [Regex.prefix_ci]. now rewrite Ha, (IH p' s Hp).
Qed.

Lemma contains_ci_lower (p p' s : string) :
  Spec.str_lower p = Spec.str_lower p' ->
  Regex.contains_ci p s = Regex.contains_ci p' s.
Proof.
  intros H. induction s as [|x s IH]; cbn [Regex.contains_ci];
    rewrite (prefix_ci_lower p p' _ H); [reflexivity | now rewrite IH].
Qed.

Lemma search_any_ext (r r' : Regex.regex) (l : list pyval) :
  (forall x, Regex.search true r x = Regex.search true r' x) ->
  Mongo.search_any true r l = Mongo.search_any true r' l.
Proof.
  intros H. induction l as [|v l IH]; [reflexivity|].
  destruct v; cbn [Mongo.search_any]; try exact IH.
  now rewrite H, IH.
Qed.

Lemma eval_regex_ext (k : string) (r r' : Regex.regex) (d : dict) :
  (forall x, Regex.search true r x = Regex.search true r' x) ->
  Mongo.eval_query (Mongo.QRegex k true r) d = Mongo.eval_query (Mongo.QRegex k true r') d.
Proof.
  intros H. cbn [Mongo.eval_query].
  destruct (dict_lookup d k) as [[| | | | s | | l |]|]; try reflexivity.
  - apply H.
  - now apply search_any_ext.
Qed.

Lemma filter_docs_ext (q q' : Mongo.query) (docs : list dict) :
  (forall d, Mongo.eval_query q d = Mongo.eval_query q' d) ->
  Mongo.filter_docs q docs = Mongo.filter_docs q' docs.
Proof.
  intros H. induction docs as [|d docs IH]; [reflexivity|].
  cbn [Mongo.filter_docs]. now rewrite H, IH.
Qed.

Lemma str_lower_empty (q q' : string) :
  Spec.str_lower q = Spec.str_lower q' ->
  String.eqb q EmptyString = String.eqb q' EmptyString.
Proof.
  destruct q, q'; cbn; intros H; try discriminate H; reflexivity.
Qed.

(** X15. The search does not depend on the case of the letters of the
    term: for two terms without pattern metacharacters that differ only
    in the case of ASCII letters, the list operation gives the same
    outcome and the same store state, for every category and every store
    state. *)
Theorem list_products_term_case :
  forall (category_ : option string) (q q' : string) (db : db_state),
    Regex.is_literal q = true ->
    Regex.is_literal q' = true ->
    Spec.str_lower q = Spec.str_lower q' ->
    list_products category_ (Some q) db = list_products category_ (Some q') db.
Proof.
  intros category_ q q' db Hl Hl' Hlow.
  assert (He := str_lower_empty q q' Hlow).
  assert (Hs : forall x, Regex.search true (Regex.literal q) x
                         = Regex.search true (Regex.literal q') x).
  { intros x. unfold Regex.search. destruct (Regex.all_chars Regex.is_ascii7 x);
      [|reflexivity].
    now rewrite !search_literal, (contains_ci_lower q q' x Hlow). }
  assert (Hor : forall d,
             Mongo.eval_query
               (Mongo.QAnd
                  (Mongo.QOr
                     [Mongo.QAnd (Mongo.QRegex "title" true (Regex.literal q)) Mongo.QAll;
                      Mongo.QAnd (Mongo.QRegex "description" true (Regex.literal q))
                        Mongo.QAll]) Mongo.QAll) d
             = Mongo.eval_query
                 (Mongo.QAnd
                    (Mongo.QOr
                       [Mongo.QAnd (Mongo.QRegex "title" true (Regex.literal q')) Mongo.QAll;
                        Mongo.QAnd (Mongo.QRegex "description" true (Regex.literal q'))
                          Mongo.QAll]) Mongo.QAll) d).
  { intros d. rewrite !eval_and, !eval_or_cons, !eval_and.
    now rewrite (eval_regex_ext "title" _ _ d Hs), (eval_regex_ext "description" _ _ d Hs). }
  unfold list_products, bind, get_documents.
  destruct db as [D|]; [|reflexivity].
  unfold on_db, Mongo.find, Mongo.store_call.
  destruct (Mongo.take_fault D) as [[msg|] D1]; [reflexivity|].
  unfold Mongo.parse_filter, list_products_filter, truthy_opt_str.
  rewrite <- He.
  destruct (String.eqb q EmptyString) eqn:Hq; cbn [negb].
  - reflexivity.
  - destruct category_ as [c|]; [destruct (String.eqb c EmptyString)|]; cbn [negb];
      cbn -[Regex.compile Mongo.filter_docs Mongo.eval_query];
      rewrite (compile_literal q Hl), (compile_literal q' Hl');
      cbn -[Regex.compile Mongo.filter_docs Mongo.eval_query];
      (erewrite filter_docs_ext; [reflexivity|]); intros d;
      first [ exact (Hor d)
            | rewrite (eval_and _ _ d), (Hor d); symmetry;
              rewrite (eval_and _ _ d); reflexivity ].
Qed.

Lemma list_products_term_case_witness :
  list_products (Some "Food") (Some "CaCaO")
    (Some (Spec.inserted_all "product" samples Samples.empty_store))
  = list_products (Some "Food") (Some "cacao")
      (Some (Spec.inserted_all "product" samples Samples.empty_store)).
Proof.
  exact (list_products_term_case (Some "Food") "CaCaO" "cacao"
           (Some (Spec.inserted_all "product" samples Samples.empty_store))
           eq_refl eq_refl eq_refl).
Defined.

(** *** Diagnostics *)

Lemma substring_prefix_length (n : nat) :
  forall s, String.length (String.substring 0 n s) <= n.
Proof.
  induction n as [|n IH]; intros s; destruct s as [|c s]; cbn; try lia.
  specialize (IH s). lia.
Qed.

Lemma substring_prefix_short (n : nat) :
  forall s, String.length s <= n -> String.substring 0 n s = s.
Proof.
  induction n as [|n IH]; intros s H; destruct s as [|c s]; cbn in *;
    try reflexivity; try lia.
  rewrite IH; [reflexivity | lia].
Qed.

Lemma substring_is_prefix (n : nat) :
  forall s, exists rest, s = String.append (String.substring 0 n s) rest.
Proof.
  induction n as [|n IH]; intros s; destruct s as [|c s]; cbn.
  - exists EmptyString. reflexivity.
  - eexists. reflexivity.
  - exists EmptyString. reflexivity.
  - destruct (IH s) as (rest & H). exists rest. now rewrite <- H.
Qed.

Lemma test_database_connected (database_url name : option string) (D : Mongo.database) :
  hd None (Mongo.faults D) = None ->
  test_database database_url name (Some D)
  = (Returned
       [ ("backend", PStr "✅ Running");
         ("database", PStr "✅ Connected & Working");
         ("database_url",
          PStr (if truthy_opt_str database_url then "✅ Set" else "❌ Not Set"));
         ("database_name", PStr (match name with Some n => n | None => "✅ Connected" end));
         ("connection_status", PStr "Connected");
         ("collections", PList (map PStr (firstn 10 (map fst (Mongo.collections D))))) ],
     Some (Spec.advanced D)).
Proof.
  intros Hh. unfold test_database, test_database_body, on_db, Mongo.list_collection_names.
  rewrite (store_call_ok _ _ Hh). reflexivity.
Qed.

Lemma test_database_failing (database_url name : option string) (D : Mongo.database)
      (msg : string) :
  hd None (Mongo.faults D) = Some msg ->
  is_ascii_text msg = true ->
  test_database database_url name (Some D)
  = (Returned
       [ ("backend", PStr "✅ Running");
         ("database",
          PStr (String.append "⚠️ Connected but Error: " (String.substring 0 50 msg)));
         ("database_url",
          PStr (if truthy_opt_str database_url then "✅ Set" else "❌ Not Set"));
         ("database_name", PStr (match name with Some n => n | None => "✅ Connected" end));
         ("connection_status", PStr "Connected");
         ("collections", PList []) ],
     Some (Spec.advanced D)).
Proof.
  intros Hh Ha. unfold test_database, test_database_body, on_db, Mongo.list_collection_names.
  rewrite (store_call_fault _ _ _ Hh). cbn [str_exn]. unfold py_slice_to. rewrite Ha.
  reflexivity.
Qed.

(** X16. The diagnostics never raise, whatever the store does; and they
    return a response, which says that the backend is running, whenever
    the message of a store failure, if there is one, is ASCII text. *)
Theorem test_database_never_raises :
  forall (database_url name : option string) (db : db_state),
    (forall e, fst (test_database database_url name db) <> Raised e) /\
    ((forall D msg, db = Some D -> hd None (Mongo.faults D) = Some msg ->
                    is_ascii_text msg = true) ->
     exists response,
       fst (test_database database_url name db) = Returned response /\
       dict_lookup response "backend" = Some (PStr "✅ Running")).
Proof.
  intros database_url name db. split.
  - intros e. destruct db as [D|]; [|discriminate].
    unfold test_database, test_database_body, on_db, Mongo.list_collection_names,
      Mongo.store_call.
    rewrite take_fault_eq. destruct (hd None (Mongo.faults D)) as [msg|]; [|discriminate].
    cbn [str_exn]. unfold py_slice_to. destruct (is_ascii_text msg); discriminate.
  - intros Hascii. destruct db as [D|].
    + destruct (hd None (Mongo.faults D)) as [msg|] eqn:Hh.
      * rewrite (test_database_failing _ _ D msg Hh (Hascii D msg eq_refl Hh)).
        eexists. split; reflexivity.
      * rewrite (test_database_connected _ _ D Hh). eexists. split; reflexivity.
    + eexists. split; reflexivity.
Qed.

Lemma test_database_never_raises_witness :
  exists response,
    fst (test_database (Some "mongodb://localhost") (Some "shopease")
           (Some Samples.failing_store)) = Returned response /\
    dict_lookup response "backend" = Some (PStr "✅ Running").
Proof.
  apply (proj2 (test_database_never_raises (Some "mongodb://localhost") (Some "shopease")
                  (Some Samples.failing_store))).
  intros D msg HD Hh. inversion HD; subst D. cbn in Hh. inversion Hh; subst msg.
  reflexivity.
Defined.

(** X17. When listing the collections fails, the diagnostics report the
    first 50 characters of the message of the failure and no more: the
    reported text is a prefix of the message of length at most 50, the
    whole message when it is that short; the connection is still reported
    as established and no collection is listed. *)
Theorem test_database_truncates_error :
  forall (database_url name : option string) (D : Mongo.database) (msg : string),
    hd None (Mongo.faults D) = Some msg ->
    is_ascii_text msg = true ->
    exists response text,
      test_database database_url name (Some D) = (Returned response, Some (Spec.advanced D)) /\
      dict_lookup response "database"
      = Some (PStr (String.append "⚠️ Connected but Error: " text)) /\
      String.length text <= 50 /\
      (exists rest, msg = String.append text rest) /\
      (String.length msg <= 50 -> text = msg) /\
      dict_lookup response "connection_status" = Some (PStr "Connected") /\
      dict_lookup response "collections" = Some (PList []).
Proof.
  intros database_url name D msg Hh Ha.
  rewrite (test_database_failing _ _ D msg Hh Ha).
  eexists. exists (String.substring 0 50 msg).
  split; [reflexivity|]. split; [reflexivity|].
  split; [apply substring_prefix_length|].
  split; [apply substring_is_prefix|].
  split; [apply substring_prefix_short|].
  split; reflexivity.
Qed.

Lemma test_database_truncates_error_witness :
  exists response text,
    fst (test_database None None (Some Samples.failing_store)) = Returned response /\
    dict_lookup response "database"
    = Some (PStr (String.append "⚠️ Connected but Error: " text)) /\
    String.length text <= 50.
Proof.
  destruct (test_database_truncates_error None None Samples.failing_store Samples.refused
              eq_refl eq_refl) as (response & text & H1 & H2 & H3 & _).
  exists response, text. split; [now rewrite H1 | split; [exact H2 | exact H3]].
Defined.

(** X18. When the store answers, the diagnostics list the names of its
    collections in the store's order, cut after the tenth, and report
    the store as connected and working together with the name of the
    handle and whether a database URL is configured (a URL that is set
    but empty counts as not set). *)
Theorem test_database_lists_collections :
  forall (database_url name : option string) (D : Mongo.database),
    hd None (Mongo.faults D) = None ->
    exists response names,
      test_database database_url name (Some D) = (Returned response, Some (Spec.advanced D)) /\
      dict_lookup response "collections" = Some (PList (map PStr names)) /\
      names = firstn 10 (map fst (Mongo.collections D)) /\
      length names <= 10 /\
      (length (Mongo.collections D) <= 10 -> names = map fst (Mongo.collections D)) /\
      dict_lookup response "database" = Some (PStr "✅ Connected & Working") /\
      dict_lookup response "connection_status" = Some (PStr "Connected") /\
      (database_url = None \/ database_url = Some EmptyString ->
       dict_lookup response "database_url" = Some (PStr "❌ Not Set")) /\
      (forall n, name = Some n -> dict_lookup response "database_name" = Some (PStr n)).
Proof.
  intros database_url name D Hh.
  rewrite (test_database_connected _ _ D Hh).
  eexists. exists (firstn 10 (map fst (Mongo.collections D))).
  split; [reflexivity|]. split; [reflexivity|]. split; [reflexivity|].
  split; [apply firstn_le_length|].
  split; [intros Hlen; apply firstn_all2; now rewrite length_map|].
  split; [reflexivity|]. split; [reflexivity|]. split.
  - intros [->| ->]; reflexivity.
  - intros n ->. reflexivity.
Qed.

Lemma test_database_lists_collections_witness :
  exists response,
    fst (test_database (Some "mongodb://localhost") (Some "shopease")
           (Some (Spec.inserted_all "product" samples Samples.empty_store)))
    = Returned response /\
    dict_lookup response "collections" = Some (PList [PStr "product"]).
Proof.
  destruct (test_database_lists_collections (Some "mongodb://localhost") (Some "shopease")
              (Spec.inserted_all "product" samples Samples.empty_store) eq_refl)
    as (response & names & H1 & H2 & H3 & _).
  exists response. split; [now rewrite H1|]. rewrite H2, H3. reflexivity.
Defined.

(** *** Listing by category and the unfiltered listing *)

Lemma filter_by_category (c : string) (docs : list dict) (ps : list ProductOut) :
  Forall2 (fun d p => product_out d = Returned p) docs ps ->
  forall acc,
    obind (Mongo.filter_docs (Mongo.QAnd (Mongo.QEq "category" c) Mongo.QAll) docs)
      (fun r => products_out r acc)
    = Returned (acc ++ filter (fun p => String.eqb (category p) c) ps).
Proof.
  induction 1 as [|d p docs ps Hp Hall IH]; intros acc.
  - cbn. now rewrite app_nil_r.
  - cbn [Mongo.filter_docs filter]. rewrite eval_and, eval_all.
    destruct (product_out_inv d p Hp) as (_ & Hcat & _).
    cbn [Mongo.eval_query]. rewrite Hcat. cbn [Mongo.str_equal obind].
    rewrite andb_true_r.
    pose proof (IH acc) as IH1. pose proof (IH (acc ++ [p])) as IH2.
    destruct (Mongo.filter_docs (Mongo.QAnd (Mongo.QEq "category" c) Mongo.QAll) docs)
      as [r|e|]; try discriminate IH1.
    cbn [obind] in *.
    destruct (String.eqb (category p) c).
    + cbn [products_out]. rewrite Hp. cbn [obind].
      rewrite IH2, <- app_assoc. reflexivity.
    + exact IH1.
Qed.

(** X19. When every stored document has a public record, listing by a
    (non-empty) category returns exactly the records of the unfiltered
    listing that carry this category, in the same order. *)
Theorem list_products_by_category :
  forall (D : Mongo.database) (c : string) (ps : list ProductOut),
    hd None (Mongo.faults D) = None ->
    String.eqb c EmptyString = false ->
    Forall2 (fun d p => product_out d = Returned p) (Mongo.collection D "product") ps ->
    list_products None None (Some D) = (Returned ps, Some (Spec.advanced D)) /\
    list_products (Some c) None (Some D)
    = (Returned (filter (fun p => String.eqb (category p) c) ps), Some (Spec.advanced D)).
Proof.
  intros D c ps Hh Hc Hall. split.
  - rewrite (list_products_unfiltered D Hh), (products_out_all _ [] ps Hall). reflexivity.
  - unfold list_products, bind, get_documents, on_db, Mongo.find, lift.
    rewrite (store_call_ok _ _ Hh).
    change (Mongo.collection (Spec.advanced D) "product")
      with (Mongo.collection D "product").
    unfold Mongo.parse_filter, list_products_filter, truthy_opt_str.
    rewrite Hc. cbn [negb]. cbn -[Mongo.filter_docs].
    assert (H := filter_by_category c _ ps Hall []).
    destruct (Mongo.filter_docs (Mongo.QAnd (Mongo.QEq "category" c) Mongo.QAll)
                (Mongo.collection D "product")) as [r|e|]; try discriminate H.
    cbn [obind] in H. now rewrite H.
Qed.

Lemma list_products_by_category_witness :
  list_products (Some "Clothes") None
    (Some (Mongo.mkDatabase [("product", [Samples.plain_tee; Samples.bare])] 10%N []))
  = (Returned [mkProductOut "000000000000000000000007" "Plain Tee" (Some "Soft cotton tee")
                 (f64_of_decimal 1499 2) "Clothes" true],
     Some (Spec.advanced
             (Mongo.mkDatabase [("product", [Samples.plain_tee; Samples.bare])] 10%N []))).
Proof.
  assert (Hall : Forall2 (fun d p => product_out d = Returned p)
                   (Mongo.collection
                      (Mongo.mkDatabase [("product", [Samples.plain_tee; Samples.bare])]
                         10%N []) "product")
                   [mkProductOut "000000000000000000000007" "Plain Tee"
                      (Some "Soft cotton tee") (f64_of_decimal 1499 2) "Clothes" true;
                    mkProductOut "000000000000000000000009" "Mug" None f64_zero "Home" true]).
  { constructor; [reflexivity|]. constructor; [reflexivity | constructor]. }
  exact (proj2 (list_products_by_category
                  (Mongo.mkDatabase [("product", [Samples.plain_tee; Samples.bare])] 10%N [])
                  "Clothes" _ eq_refl eq_refl Hall)).
Defined.

(** *** Seeding after an interrupted seeding *)

(** X20. A seeding that was interrupted after at least one insert cannot
    be completed by seeding again: the next call finds the collection
    non-empty, inserts nothing and reports [seeded=false] with the number
    of samples that the interrupted call had inserted. *)
Theorem seed_products_after_interruption :
  forall (D : Mongo.database) (k : nat) (msg : string) (rest : list (option string)),
    Mongo.collection D "product" = [] ->
    0 < k -> k < length samples ->
    Mongo.faults D = None :: repeat None k ++ Some msg :: rest ->
    hd None rest = None ->
    exists D',
      seed_products (Some D) = (Raised (HTTPException 500 msg), Some D') /\
      seed_products (Some D')
      = (Returned [("status", PStr "ok"); ("seeded", PBool false);
                   ("existing", PInt (Z.of_nat k))],
         Some (Spec.advanced D')) /\
      Mongo.collection (Spec.advanced D') "product"
      = Spec.with_ids (Mongo.next_oid D) (firstn k samples).
Proof.
  intros D k msg rest Hempty Hpos Hk Hf Hrest.
  set (D' := Spec.advanced (Spec.inserted_all "product" (firstn k samples) (Spec.advanced D))).
  assert (Hh : hd None (Mongo.faults D) = None) by now rewrite Hf.
  destruct (inserted_all_spec "product" (firstn k samples) (Spec.advanced D))
    as (Hc & _ & Hfs).
  assert (Hcoll : Mongo.collection D' "product"
                  = Spec.with_ids (Mongo.next_oid D) (firstn k samples)).
  { unfold D', Mongo.collection in *. cbn [Spec.advanced Mongo.collections] in *.
    rewrite Hc, Hempty. reflexivity. }
  assert (Hlen : forall l n, length (Spec.with_ids n l) = length l).
  { induction l as [|d l IH]; intros n; simpl; [reflexivity | now rewrite IH]. }
  assert (Hfaults : Mongo.faults D' = rest).
  { unfold D'. cbn [Spec.advanced Mongo.faults]. rewrite Hfs.
    cbn [Spec.advanced Mongo.faults]. rewrite Hf. cbn [tl].
    rewrite length_firstn, (Nat.min_l k) by lia.
    rewrite <- (repeat_length (@None string) k) at 1.
    now rewrite skipn_app, skipn_all, Nat.sub_diag. }
  exists D'. split; [|split].
  - rewrite (seed_products_run D Hh), Hempty. cbn [length Nat.ltb Nat.leb].
    rewrite (seed_loop_fault k samples (Spec.advanced D) msg rest samples_fresh Hk);
      [reflexivity|].
    cbn [Spec.advanced Mongo.faults]. now rewrite Hf.
  - rewrite seed_products_run by now rewrite Hfaults.
    rewrite Hcoll, Hlen, length_firstn, (Nat.min_l k) by lia.
    destruct k as [|k]; [lia | reflexivity].
  - exact Hcoll.
Qed.

Lemma seed_products_after_interruption_witness :
  exists D',
    seed_products (Some (Mongo.mkDatabase [] 0%N [None; None; None; Some "write refused"]))
    = (Raised (HTTPException 500 "write refused"), Some D') /\
    fst (seed_products (Some D'))
    = Returned [("status", PStr "ok"); ("seeded", PBool false); ("existing", PInt 2)].
Proof.
  destruct (seed_products_after_interruption
              (Mongo.mkDatabase [] 0%N [None; None; None; Some "write refused"])
              2 "write refused" [] eq_refl) as (D' & H1 & H2 & _).
  - apply Nat.ltb_lt. reflexivity.
  - apply Nat.ltb_lt. reflexivity.
  - reflexivity.
  - reflexivity.
  - exists D'. split; [exact H1 | now rewrite H2].
Defined.
